(** * Video Management System: job queue, stream supervision and alert model

    Shallow embedding of the server-side core of the VMS repository:
    - [AIService] (src/unnamed/part_003): the in-memory processing queue,
      [processStream] (submission) and the [startQueueProcessing] drain tick;
    - [StreamService] (src/server/services/StreamService.js): the worker and
      active-stream registries, [startStream], [stopStream] and the
      [monitorActiveStreams] health sweep;
    - [StreamWorker] (src/server/routes/streams.js): [start] and
      [processFrame] / [captureFrame];
    - the [Alert] mongoose schema (src/unnamed/part_001): the pre-save hook,
      the instance transitions and the static helpers.

    Times are JavaScript [Date] values in milliseconds ([Z]).  A mongoose
    collection is modelled as a list of documents (insertion order) or as a
    [gmap] keyed by the document id. *)

From Stdlib Require Import ZArith QArith List String Lia Permutation Sorted.
From stdpp Require Import base gmap strings.

Import ListNotations.
Open Scope string_scope.

(* ================================================================== *)
(** ** AIService: processing queue *)

Module AIService.

(** A queue item built by [processStream]:
    [{ id, streamId, modelType, parameters, timestamp, priority }].
    The parameter bag is opaque to the queue and not modelled. *)
Record queue_item := mkItem {
  qi_id : string * string * Z;  (* `${streamId}-${modelType}-${Date.now()}` *)
  qi_streamId : string;
  qi_modelType : string;
  qi_timestamp : Z;
  qi_priority : string
}.

(** Names of the properties that every plain JS object literal inherits
    from [Object.prototype]; [priorityOrder[p]] yields a non-number object
    for these. *)
Definition object_prototype_keys : list string :=
  ["constructor"; "__defineGetter__"; "__defineSetter__"; "hasOwnProperty";
   "__lookupGetter__"; "__lookupSetter__"; "isPrototypeOf";
   "propertyIsEnumerable"; "toString"; "valueOf"; "__proto__";
   "toLocaleString"].

Definition is_prototype_key (p : string) : bool :=
  existsb (String.eqb p) object_prototype_keys.

(** The JS value of [priorityOrder[p]] for
    [priorityOrder = { critical: 4, high: 3, medium: 2, low: 1 }]. *)
Inductive prio_val :=
  | PNum (z : Z)          (* a number *)
  | PUndef                (* undefined: key absent *)
  | PObj (name : string). (* an inherited object (function) *)

Definition priorityOrder_get (p : string) : prio_val :=
  if String.eqb p "critical" then PNum 4
  else if String.eqb p "high" then PNum 3
  else if String.eqb p "medium" then PNum 2
  else if String.eqb p "low" then PNum 1
  else if is_prototype_key p then PObj p
  else PUndef.

(** [priorityOrder[x.priority] || 2]: only [undefined] (and [0], which
    never occurs) is falsy. *)
Definition rank (p : string) : prio_val :=
  match priorityOrder_get p with
  | PUndef => PNum 2
  | PNum 0 => PNum 2
  | v => v
  end.

(** [aPriority !== bPriority] *)
Definition prio_neq (a b : prio_val) : bool :=
  match a, b with
  | PNum x, PNum y => negb (Z.eqb x y)
  | PObj n, PObj m => negb (String.eqb n m)
  | _, _ => true
  end.

(** The comparator passed to [sort].  [bPriority - aPriority] is [NaN]
    when one side is an object; the ECMAScript [SortCompare] turns a
    [NaN] result into [+0]. *)
Definition cmp (a b : queue_item) : Z :=
  let ap := rank (qi_priority a) in
  let bp := rank (qi_priority b) in
  if prio_neq ap bp then
    match ap, bp with
    | PNum x, PNum y => y - x
    | _, _ => 0
    end
  else qi_timestamp a - qi_timestamp b.

(** [Array.prototype.sort] is stable (ES2019); for a consistent comparator
    its result is the stable sorted permutation, computed here by
    insertion sort (an element goes before every later element it does
    not compare above). *)
Fixpoint insert_sorted (x : queue_item) (l : list queue_item) : list queue_item :=
  match l with
  | [] => [x]
  | y :: l' => if Z.leb (cmp x y) 0 then x :: y :: l' else y :: insert_sorted x l'
  end.

Fixpoint js_sort (l : list queue_item) : list queue_item :=
  match l with
  | [] => []
  | x :: l' => insert_sorted x (js_sort l')
  end.

(** Service state touched by the queue: [processingQueue] and
    [isProcessing]. *)
Record sched := mkSched {
  processingQueue : list queue_item;
  isProcessing : bool
}.

(** The synchronous part of one [setInterval] callback of
    [startQueueProcessing]: return when a previous tick is still awaiting
    [processQueueItem] or the queue is empty; otherwise set
    [isProcessing], sort the queue in place and [shift] the first item,
    which is handed to [processQueueItem]. *)
Definition drain_tick (s : sched) : sched * option queue_item :=
  if isProcessing s || Nat.eqb (length (processingQueue s)) 0 then (s, None)
  else
    match js_sort (processingQueue s) with
    | [] => (s, None)
    | item :: rest => (mkSched rest true, Some item)
    end.

(** The [finally] block run when [processQueueItem] settles. *)
Definition drain_finish (s : sched) : sched :=
  mkSched (processingQueue s) false.

(** Numeric rank of a priority that is not an inherited key. *)
Definition rankZ (p : string) : Z :=
  if String.eqb p "critical" then 4
  else if String.eqb p "high" then 3
  else if String.eqb p "low" then 1
  else 2.

(** Model registry ([this.models], a JS [Map]): model id to its
    [supportedTypes]. *)
Definition model_registry := gmap string (list string).

(** The fields of a [Stream] document read by [processStream]. *)
Record stream_doc := mkStreamDoc {
  sd_name : string;
  sd_source_type : string;
  sd_metadata_priority : option string  (* [None]: missing *)
}.

Inductive ai_error := ModelNotFound | StreamNotFound | UnsupportedType.

(** [stream.metadata.priority || 'medium'] *)
Definition item_priority (st : stream_doc) : string :=
  match sd_metadata_priority st with
  | None => "medium"
  | Some p => if String.eqb p "" then "medium" else p
  end.

(** [processStream(streamId, modelType)] at time [now]: the three checks,
    then [processingQueue.push(queueItem)].  Returns the new queue and the
    pushed item. *)
Definition processStream (models : model_registry) (db : gmap string stream_doc)
    (q : list queue_item) (streamId modelType : string) (now : Z)
    : ai_error + (list queue_item * queue_item) :=
  match models !! modelType with
  | None => inl ModelNotFound
  | Some supported =>
    match db !! streamId with
    | None => inl StreamNotFound
    | Some st =>
      if existsb (String.eqb (sd_source_type st)) supported then
        let item := mkItem (streamId, modelType, now) streamId modelType now
                      (item_priority st) in
        inr ((q ++ [item])%list, item)
      else inl UnsupportedType
    end
  end.

(** The order realised by [cmp] on jobs with a numeric rank: higher rank
    first, then earlier timestamp. *)
Definition key_le (x y : queue_item) : Prop :=
  (rankZ (qi_priority y) < rankZ (qi_priority x) \/
   (rankZ (qi_priority x) = rankZ (qi_priority y) /\
    qi_timestamp x <= qi_timestamp y))%Z.

Definition numeric (j : queue_item) : Prop := is_prototype_key (qi_priority j) = false.

End AIService.

(* ================================================================== *)
(** ** The Alert model (mongoose schema, src/unnamed/part_001) *)

Module AlertModel.

Inductive alert_type := TDetection | TError | TWarning | TInfo | TCritical.
Inductive severity := Low | Medium | High | Critical.
Inductive status := Active | Acknowledged | Resolved | Dismissed.

Definition severity_eqb (a b : severity) : bool :=
  match a, b with
  | Low, Low | Medium, Medium | High, High | Critical, Critical => true
  | _, _ => false
  end.

Definition status_eqb (a b : status) : bool :=
  match a, b with
  | Active, Active | Acknowledged, Acknowledged
  | Resolved, Resolved | Dismissed, Dismissed => true
  | _, _ => false
  end.

(** An element of [data.detections]. *)
Record detection := mkDetection {
  d_label : string;
  d_confidence : Q;
  d_timestamp : option Z
}.

(** An [Alert] document; [al_id] stands for the generated [_id]. *)
Record alert := mkAlert {
  al_id : nat;
  al_streamId : string;
  al_type : alert_type;
  al_category : string;
  al_title : string;
  al_message : string;
  al_severity : severity;
  al_status : status;
  al_detections : list detection;
  al_timestamp : Z;
  al_acknowledgedAt : option Z;
  al_acknowledgedBy : option string;
  al_resolvedAt : option Z;
  al_resolvedBy : option string;
  al_expiresAt : option Z
}.

Definition set_status (st : status) (a : alert) : alert :=
  mkAlert (al_id a) (al_streamId a) (al_type a) (al_category a) (al_title a)
    (al_message a) (al_severity a) st (al_detections a) (al_timestamp a)
    (al_acknowledgedAt a) (al_acknowledgedBy a) (al_resolvedAt a)
    (al_resolvedBy a) (al_expiresAt a).

Definition set_expiresAt (e : option Z) (a : alert) : alert :=
  mkAlert (al_id a) (al_streamId a) (al_type a) (al_category a) (al_title a)
    (al_message a) (al_severity a) (al_status a) (al_detections a)
    (al_timestamp a) (al_acknowledgedAt a) (al_acknowledgedBy a)
    (al_resolvedAt a) (al_resolvedBy a) e.

Definition set_acknowledged (at_ : Z) (by_ : string) (a : alert) : alert :=
  mkAlert (al_id a) (al_streamId a) (al_type a) (al_category a) (al_title a)
    (al_message a) (al_severity a) Acknowledged (al_detections a)
    (al_timestamp a) (Some at_) (Some by_) (al_resolvedAt a)
    (al_resolvedBy a) (al_expiresAt a).

Definition set_resolved (at_ : Z) (by_ : string) (a : alert) : alert :=
  mkAlert (al_id a) (al_streamId a) (al_type a) (al_category a) (al_title a)
    (al_message a) (al_severity a) Resolved (al_detections a)
    (al_timestamp a) (al_acknowledgedAt a) (al_acknowledgedBy a)
    (Some at_) (Some by_) (al_expiresAt a).

(** [24 * 60 * 60 * 1000] *)
Definition day_ms : Z := (24 * 60 * 60 * 1000)%Z.

(** [alertSchema.pre('save')] run at time [now]. *)
Definition pre_save (now : Z) (a : alert) : alert :=
  let a1 :=
    match al_expiresAt a with
    | None => if severity_eqb (al_severity a) Critical then a
              else set_expiresAt (Some (now + day_ms)%Z) a
    | Some _ => a
    end in
  if severity_eqb (al_severity a1) Critical then set_expiresAt None a1 else a1.

(** [new this({...})] followed by [save()] at time [now]: [status] defaults
    to [active], [timestamp] to [Date.now], [expiresAt] is unset. *)
Definition new_alert (id : nat) (streamId : string) (ty : alert_type)
    (category title message : string) (sev : severity)
    (dets : list detection) (now : Z) : alert :=
  pre_save now (mkAlert id streamId ty category title message sev Active dets
                  now None None None None None).

(** [alert.acknowledge(by)], [alert.resolve(by)], [alert.dismiss()]. *)
Definition acknowledge (now : Z) (by_ : string) (a : alert) : alert :=
  pre_save now (set_acknowledged now by_ a).

Definition resolve (now : Z) (by_ : string) (a : alert) : alert :=
  pre_save now (set_resolved now by_ a).

Definition dismiss (now : Z) (a : alert) : alert :=
  pre_save now (set_status Dismissed a).

(** The alerts collection, in insertion order. *)
Abbreviation alert_store := (list alert) (only parsing).

(** [Alert.cleanExpiredAlerts()] at time [now]: [updateMany] with filter
    [{ expiresAt: { $lt: now }, status: { $in: [active, acknowledged] } }]
    (a [null] [expiresAt] never matches [$lt]) and [$set: {status:
    'dismissed'}]; [updateMany] runs no save hook. *)
Definition expired_match (now : Z) (a : alert) : bool :=
  match al_expiresAt a with
  | Some e => Z.ltb e now &&
              (status_eqb (al_status a) Active || status_eqb (al_status a) Acknowledged)
  | None => false
  end.

Definition cleanExpiredAlerts (now : Z) (s : alert_store) : alert_store :=
  map (fun a => if expired_match now a then set_status Dismissed a else a) s.

(** [POST /bulk-acknowledge] and [POST /bulk-resolve]: [updateMany] on
    [{ _id: { $in: alertIds } }]. *)
Definition bulk_acknowledge (ids : list nat) (now : Z) (by_ : string)
    (s : alert_store) : alert_store :=
  map (fun a => if existsb (Nat.eqb (al_id a)) ids then set_acknowledged now by_ a
                else a) s.

Definition bulk_resolve (ids : list nat) (now : Z) (by_ : string)
    (s : alert_store) : alert_store :=
  map (fun a => if existsb (Nat.eqb (al_id a)) ids then set_resolved now by_ a
                else a) s.

(** Decimal rendering of a count inside a template literal. *)
Fixpoint digits_rev (fuel n : nat) : list Ascii.ascii :=
  match fuel with
  | O => []
  | S f => Ascii.ascii_of_nat (48 + n mod 10) ::
           (if Nat.ltb n 10 then [] else digits_rev f (n / 10))
  end.

Definition nat_to_string (n : nat) : string :=
  String.string_of_list_ascii (rev (digits_rev (S n) n)).

(** The [category] enum of [alertSchema]. *)
Definition alert_categories : list string :=
  ["object-detection"; "defect-analysis"; "motion-detection"; "system"; "network"; "ai-model"].

(** [true] when [save()] accepts [c] as the [category] of an alert. *)
Definition category_ok (c : string) : bool := existsb (String.eqb c) alert_categories.

(** [Alert.createDetectionAlert(streamId, detections, modelType)]: always a
    fresh document, with [category: modelType], appended to the collection;
    [save()] rejects ([None], nothing stored) when [modelType] is not in the
    [category] enum. *)
Definition createDetectionAlert (streamId : string) (dets : list detection)
    (modelType : string) (now : Z) (s : alert_store) : option alert_store :=
  let n := length dets in
  if category_ok modelType then
    Some (s ++ [new_alert (length s) streamId TDetection modelType
                  (nat_to_string n ++ " objects detected")
                  ("AI model detected " ++ nat_to_string n ++ " objects in stream")
                  (if Nat.ltb 5 n then High else Medium)
                  (map (fun d => mkDetection (d_label d) (d_confidence d) (Some now)) dets)
                  now])%list
  else None.

(** [Alert.createSystemAlert(streamId, type, title, message, severity)], with
    no [data] argument (or one that sets no path of the schema's [data]:
    strict mode drops the unknown keys). *)
Definition createSystemAlert (streamId : string) (ty : alert_type)
    (title message : string) (sev : severity) (now : Z) (s : alert_store)
    : alert_store :=
  (s ++ [new_alert (length s) streamId ty "system" title message sev [] now])%list.

(** The [data] argument of [Alert.createSystemAlert] as the schema sees it:
    [DataPlain] sets no schema path of [data]; [DataErrorString] is
    [{ error: error.message, ... }], a string under [data.error], which the
    schema declares as a nested object [{ code, message, stack }]. *)
Inductive system_data := DataPlain | DataErrorString.

(** [Alert.createSystemAlert(streamId, type, title, message, severity, data)]:
    a string cannot be cast to the nested path [data.error], so [save()]
    rejects ([None], nothing stored). *)
Definition createSystemAlertWith (data : system_data) (streamId : string)
    (ty : alert_type) (title message : string) (sev : severity) (now : Z)
    (s : alert_store) : option alert_store :=
  match data with
  | DataPlain => Some (createSystemAlert streamId ty title message sev now s)
  | DataErrorString => None
  end.

(** The alert step of [AIService.processQueueItem]: keep the detections
    whose confidence is above [parameters.confidence] and, when some are
    left, call [createDetectionAlert]; [None] when its [save()] rejects. *)
Definition on_outcome (streamId modelType : string) (threshold : Q)
    (dets : list detection) (now : Z) (s : alert_store) : option alert_store :=
  match dets with
  | [] => Some s
  | _ =>
    let significant := List.filter (fun d => negb (Qle_bool (d_confidence d) threshold)) dets in
    match significant with
    | [] => Some s
    | _ => createDetectionAlert streamId significant modelType now s
    end
  end.

(** Number of [active] alerts with a given (stream, title) key. *)
Definition count_active (streamId title : string) (s : alert_store) : nat :=
  length (List.filter (fun a => String.eqb (al_streamId a) streamId &&
                           String.eqb (al_title a) title &&
                           status_eqb (al_status a) Active) s).

(** The title [createDetectionAlert] gives to [n] detections. *)
Definition detection_title (n : nat) : string := nat_to_string n ++ " objects detected".

End AlertModel.

(* ================================================================== *)
(** ** StreamWorker (worker thread, src/server/routes/streams.js) *)

Module StreamWorker.

(** The fields of [workerData.streamData] read by the worker. *)
Record feed_config := mkFeed {
  fc_name : string;
  fc_source_type : string;
  fc_fps : Q;                  (* settings.fps *)
  fc_width : Z;                (* settings.resolution.width *)
  fc_height : Z;               (* settings.resolution.height *)
  fc_aiModels : list (string * bool)  (* (modelType, isActive) *)
}.

(** A JS number produced by [1000 / fps]. *)
Inductive js_num := JFinite (q : Q) | JPosInf.

(** [1000 / fps]: [+Infinity] when [fps] is [0]. *)
Definition js_div_1000 (fps : Q) : js_num :=
  if Qeq_bool fps 0 then JPosInf else JFinite (1000 / fps).



Record worker := mkWorker {
  streamData : feed_config;
  isRunning : bool;
  frameCount : nat;
  lastFrameTime : option Z;
  processingInterval : option js_num  (* the delay given to [setInterval] *)
}.

(** Messages posted to the parent through [sendMessage]. *)
Inductive msg :=
  | MsgStatusUpdate (status : string)
  | MsgFrameProcessed (frameNumber : nat)
  | MsgAIResult (modelType : string) (frameNumber : nat)
  | MsgError (message : string).

Definition new_worker (cfg : feed_config) : worker :=
  mkWorker cfg false 0 None None.

(** [start()] at time [now]: no statement in its [try] block can throw on a
    [feed_config], so the [catch] branch is unreachable. *)
Definition start (now : Z) (w : worker) : worker * list msg :=
  (mkWorker (streamData w) true (frameCount w) (Some now)
     (Some (js_div_1000 (fc_fps (streamData w)))),
   [MsgStatusUpdate "active"]).

(** A captured frame. *)
Record frame := mkFrame { fr_width : Z; fr_height : Z; fr_timestamp : Z }.

(** [captureFrame()]: the source-specific capture for [rtsp], [rtmp],
    [http], [file] and [camera]; [cap] is its opaque outcome ([None]: it
    threw).  Any other source type throws.  The [catch] returns [null]. *)
Definition captureFrame (cap : option frame) (w : worker) : option frame :=
  if existsb (String.eqb (fc_source_type (streamData w)))
       ["rtsp"; "rtmp"; "http"; "file"; "camera"]
  then cap else None.

(** [processFrameWithAI(frame)]: one [ai_result] per active model (errors
    of a model are caught and logged inside [processWithAIModel]). *)
Definition processFrameWithAI (w : worker) : list msg :=
  map (fun m => MsgAIResult (fst m) (frameCount w))
      (List.filter (fun m => snd m) (fc_aiModels (streamData w))).

(** [processFrame()] at time [now], with capture outcome [cap]. *)
Definition processFrame (now : Z) (cap : option frame) (w : worker)
    : worker * list msg :=
  if negb (isRunning w) then (w, [])
  else
    let w1 := mkWorker (streamData w) (isRunning w) (S (frameCount w))
                (lastFrameTime w) (processingInterval w) in
    match captureFrame cap w1 with
    | Some _ =>
      let ai := processFrameWithAI w1 in
      (mkWorker (streamData w1) (isRunning w1) (frameCount w1) (Some now)
         (processingInterval w1),
       (ai ++ [MsgFrameProcessed (frameCount w1)])%list)
    | None => (w1, [])
    end.

(** Successive ticks of the acquisition interval, with their times and
    capture outcomes; messages are collected in order. *)
Fixpoint run_ticks (ticks : list (Z * option frame)) (w : worker)
    : worker * list msg :=
  match ticks with
  | [] => (w, [])
  | (t, cap) :: rest =>
    let (w1, m1) := processFrame t cap w in
    let (w2, m2) := run_ticks rest w1 in
    (w2, (m1 ++ m2)%list)
  end.

Definition is_error_msg (m : msg) : bool :=
  match m with MsgError _ => true | _ => false end.

End StreamWorker.

(* ================================================================== *)
(** ** StreamService (src/server/services/StreamService.js) *)

Module StreamService.

Import AlertModel.

(** A JS [Map] keyed by stream id, in insertion order. *)
Definition js_map (V : Type) := list (string * V).

Definition map_get {V} (k : string) (m : js_map V) : option V :=
  option_map snd (find (fun kv => String.eqb (fst kv) k) m).

Definition map_has {V} (k : string) (m : js_map V) : bool :=
  match map_get k m with Some _ => true | None => false end.

(** [Map.prototype.set]: replace in place, or append. *)
Definition map_set {V} (k : string) (v : V) (m : js_map V) : js_map V :=
  if map_has k m
  then map (fun kv => if String.eqb (fst kv) k then (k, v) else kv) m
  else (m ++ [(k, v)])%list.

Definition map_delete {V} (k : string) (m : js_map V) : js_map V :=
  List.filter (fun kv => negb (String.eqb (fst kv) k)) m.

(** The fields of a persisted [Stream] document used here: the name, the
    status and [statistics] ([uptime], [totalFrames], [processedFrames],
    [errors], [lastProcessed]). *)
Record stream_rec := mkStreamRec {
  sr_name : string;
  sr_status : string;
  sr_uptime : Z;
  sr_totalFrames : Z;
  sr_processedFrames : Z;
  sr_errors : Z;
  sr_lastProcessed : option Z
}.

(** A record whose frame counters have the schema's defaults (0, and no
    [lastProcessed]). *)
Definition mkStream (name status : string) (uptime : Z) : stream_rec :=
  mkStreamRec name status uptime 0 0 0 None.

Definition with_status (s : string) (r : stream_rec) : stream_rec :=
  mkStreamRec (sr_name r) s (sr_uptime r) (sr_totalFrames r) (sr_processedFrames r)
    (sr_errors r) (sr_lastProcessed r).

Definition with_uptime (u : Z) (r : stream_rec) : stream_rec :=
  mkStreamRec (sr_name r) (sr_status r) u (sr_totalFrames r) (sr_processedFrames r)
    (sr_errors r) (sr_lastProcessed r).

(** [stream.updateStatistics(frameCount, hasError)] at time [now] (the
    [save()] that follows is the database update). *)
Definition updateStatistics (frameCount : Z) (hasError : bool) (now : Z)
    (r : stream_rec) : stream_rec :=
  mkStreamRec (sr_name r) (sr_status r) (sr_uptime r)
    (sr_totalFrames r + frameCount) (sr_processedFrames r + frameCount)
    (if hasError then sr_errors r + 1 else sr_errors r) (Some now).

(** A [Worker] handle; [terminate()] is modelled by dropping it. *)
Record worker_handle := mkHandle { wh_streamId : string }.

(** An [activeStreams] entry: [{ stream, startTime, frameCount, lastFrame }]
    (the stream document is represented by its name). *)
Record active_info := mkActive {
  ai_name : string;
  ai_startTime : Z;
  ai_frameCount : nat;
  ai_lastFrame : option Z
}.

Record service := mkService {
  workers : js_map worker_handle;
  activeStreams : js_map active_info;
  streams_db : gmap string stream_rec;
  alerts_db : alert_store
}.

Inductive svc_error := StreamNotFound.

(** [startStream(streamId)] at time [now]. *)
Definition startStream (streamId : string) (now : Z) (s : service)
    : service * (svc_error + stream_rec) :=
  match streams_db s !! streamId with
  | None => (s, inl StreamNotFound)
  | Some st =>
    if map_has streamId (activeStreams s) then (s, inr st)
    else
      let st' := with_status "active" st in
      (mkService (map_set streamId (mkHandle streamId) (workers s))
         (map_set streamId (mkActive (sr_name st) now 0 None) (activeStreams s))
         (<[streamId := st']> (streams_db s)) (alerts_db s),
       inr st')
  end.

(** [stopStream(streamId)]. *)
Definition stopStream (streamId : string) (s : service) : service * bool :=
  let db' := match streams_db s !! streamId with
             | Some st => <[streamId := with_status "inactive" st]> (streams_db s)
             | None => streams_db s
             end in
  (mkService (map_delete streamId (workers s))
     (map_delete streamId (activeStreams s)) db' (alerts_db s),
   true).

(** [handleFrameProcessed(streamId)] at time [now]: the heartbeat on the
    [activeStreams] entry, if any, then [Stream.findById] and
    [updateStatistics(1, false)] on the record, if any. *)
Definition handleFrameProcessed (streamId : string) (now : Z) (s : service)
    : service :=
  let act := match map_get streamId (activeStreams s) with
             | Some i =>
               map_set streamId (mkActive (ai_name i) (ai_startTime i)
                                   (S (ai_frameCount i)) (Some now)) (activeStreams s)
             | None => activeStreams s
             end in
  let db := match streams_db s !! streamId with
            | Some st => <[streamId := updateStatistics 1 false now st]> (streams_db s)
            | None => streams_db s
            end in
  mkService (workers s) act db (alerts_db s).

(** [lastFrame && (now - lastFrame) > 30000] *)
Definition is_stale (now : Z) (i : active_info) : bool :=
  match ai_lastFrame i with
  | Some t => Z.ltb 30000 (now - t)
  | None => false
  end.

(** One iteration of the loop of [monitorActiveStreams]: the alert, then
    the uptime [save]; [None] for the database when [stream.save()] throws
    (the document is gone), which the outer [catch] turns into the end of
    the sweep. *)
Definition monitor_one (now : Z) (entry : string * active_info)
    (db : gmap string stream_rec) (al : alert_store)
    : alert_store * option (gmap string stream_rec) :=
  let (id, i) := entry in
  let al' := if is_stale now i
             then createSystemAlert id TWarning "Stream Unresponsive"
                    ("Stream " ++ ai_name i ++ " has not processed frames in 30 seconds")
                    Medium now al
             else al in
  match db !! id with
  | Some st => (al', Some (<[id := with_uptime ((now - ai_startTime i) / 1000) st]> db))
  | None => (al', None)
  end.

Fixpoint monitor_loop (now : Z) (entries : js_map active_info)
    (db : gmap string stream_rec) (al : alert_store)
    : gmap string stream_rec * alert_store :=
  match entries with
  | [] => (db, al)
  | e :: rest =>
    match monitor_one now e db al with
    | (al', Some db') => monitor_loop now rest db' al'
    | (al', None) => (db, al')
    end
  end.

(** [monitorActiveStreams()] at time [now]. *)
Definition monitorActiveStreams (now : Z) (s : service) : service :=
  let (db', al') := monitor_loop now (activeStreams s) (streams_db s) (alerts_db s) in
  mkService (workers s) (activeStreams s) db' al'.

(** Shape of an alert raised by the health sweep. *)
Definition unresponsive_alert (a : alert) : Prop :=
  al_type a = TWarning /\ al_title a = "Stream Unresponsive" /\
  al_severity a = Medium /\ al_status a = Active.

(** [true] when the database holds a record for [k]. *)
Definition has_record (db : gmap string stream_rec) (k : string) : bool :=
  match db !! k with Some _ => true | None => false end.

(** The spec's scenario state: F1's last frame is 31000 ms old. *)
Definition stale_service : service :=
  mkService [("F1", mkHandle "F1")] [("F1", mkActive "Cam 1" 0 10 (Some 1000%Z))]
    (<["F1" := mkStream "Cam 1" "active" 0]> ∅) [].

End StreamService.

(* ================================================================== *)
(** ** AIService: model registry, batches, queue items and cleanup *)

Module AIServiceOps.

Import AIService AlertModel.

(** The [supportedTypes] of each of the four definitions of [loadModels]. *)
Definition all_source_types : list string := ["rtsp"; "rtmp"; "http"; "file"; "camera"].

(** The [enum] of [source.type] in the [Stream] schema (src/unnamed/part_002). *)
Definition schema_source_types : list string := ["rtsp"; "rtmp"; "http"; "file"; "camera"].

(** The ids of the four model definitions. *)
Definition model_ids : list string :=
  ["object-detection"; "defect-analysis"; "face-recognition"; "motion-detection"].

(** [loadModels()]: [this.models.set(modelDef.id, ...)] for the four
    definitions, in order, into the registry [m]. *)
Definition loadModels (m : model_registry) : model_registry :=
  <["motion-detection" := all_source_types]>
  (<["face-recognition" := all_source_types]>
  (<["defect-analysis" := all_source_types]>
  (<["object-detection" := all_source_types]> m))).

(** The state of the service object: [this.models] and the queue. *)
Record ai_service := mkAIService {
  ai_models : model_registry;
  ai_sched : sched
}.

(** [cleanup()]: [this.processingQueue = []] and [this.models.clear()];
    [isProcessing] is left as it is. *)
Definition cleanup (s : ai_service) : ai_service :=
  mkAIService ∅ (mkSched [] (isProcessing (ai_sched s))).

(** An element of the array returned by [batchProcessStreams]:
    [{ streamId, success: true, data }] or [{ streamId, success: false,
    error }]; [data.queueId] is the id of the pushed item. *)
Inductive batch_result :=
  | BatchOk (streamId : string) (item : queue_item)
  | BatchErr (streamId : string) (e : ai_error).

Definition batch_streamId (r : batch_result) : string :=
  match r with BatchOk sid _ | BatchErr sid _ => sid end.

Definition batch_items (rs : list batch_result) : list queue_item :=
  flat_map (fun r => match r with BatchOk _ item => [item] | BatchErr _ _ => [] end) rs.

(** [batchProcessStreams(streamIds, modelType)]: each [processStream] call
    in its own [try]; each stream id comes with the time its call runs. *)
Fixpoint batchProcessStreams (models : model_registry) (db : gmap string stream_doc)
    (q : list queue_item) (reqs : list (string * Z)) (modelType : string)
    : list batch_result * list queue_item :=
  match reqs with
  | [] => ([], q)
  | (sid, t) :: rest =>
    match processStream models db q sid modelType t with
    | inr (q', item) =>
      let (rs, q'') := batchProcessStreams models db q' rest modelType in
      (BatchOk sid item :: rs, q'')
    | inl e =>
      let (rs, q'') := batchProcessStreams models db q rest modelType in
      (BatchErr sid e :: rs, q'')
    end
  end.

(** A JS value met by [d.confidence > parameters.confidence]: a number, an
    object (the parameter descriptor [{ type, default, min, max }] of
    [model.parameters]) or [undefined]. *)
Inductive param_val := PVNum (q : Q) | PVObj | PVUndef.

(** The model definitions whose [parameters] declare [confidence]. *)
Definition has_confidence_param (modelType : string) : bool :=
  String.eqb modelType "object-detection" || String.eqb modelType "face-recognition".

(** [{ ...model.parameters, ...parameters }.confidence] for the caller's
    [parameters.confidence] ([None]: not given). *)
Definition merged_confidence (modelType : string) (user : option Q) : param_val :=
  match user with
  | Some c => PVNum c
  | None => if has_confidence_param modelType then PVObj else PVUndef
  end.

(** [c > v]: an object or [undefined] converts to [NaN], and every
    comparison with [NaN] is false. *)
Definition js_gt (c : Q) (v : param_val) : bool :=
  match v with
  | PVNum t => negb (Qle_bool c t)
  | _ => false
  end.

(** The outcome of [simulateAIProcessing] and the result [save]: the
    detections, or the message of the error thrown. *)
Inductive ai_outcome := Completed (dets : list detection) | Failed (message : string).

(** The [catch] block of [processQueueItem] for an error with message [m]:
    [createSystemAlert] with [data = { error: error.message, modelType }];
    when its [save()] rejects, nothing is stored. *)
Definition processQueueItem_catch (item : queue_item) (m : string) (now : Z)
    (s : alert_store) : alert_store :=
  match createSystemAlertWith DataErrorString (qi_streamId item) TError "AI Processing Error"
          ("AI processing failed for model " ++ qi_modelType item ++ ": " ++ m) High now s with
  | Some s' => s'
  | None => s
  end.

(** The message of the rejection of an alert whose [category] is not in
    the enum. *)
Definition category_error_message (c : string) : string :=
  "Alert validation failed: category: `" ++ c ++ "` is not a valid enum value for path `category`.".

(** The alert part of [processQueueItem(item)] at time [now], where [conf]
    is [item.parameters.confidence]; a rejected [createDetectionAlert]
    lands in the [catch] block. *)
Definition processQueueItem (item : queue_item) (conf : param_val)
    (out : ai_outcome) (now : Z) (s : alert_store) : alert_store :=
  match out with
  | Completed dets =>
    match dets with
    | [] => s
    | _ =>
      match List.filter (fun d => js_gt (d_confidence d) conf) dets with
      | [] => s
      | sig =>
        match createDetectionAlert (qi_streamId item) sig (qi_modelType item) now s with
        | Some s' => s'
        | None => processQueueItem_catch item (category_error_message (qi_modelType item)) now s
        end
      end
    end
  | Failed m => processQueueItem_catch item m now s
  end.

(** Successive drain ticks, each one after the previous job has settled
    ([drain_finish]), with no submission in between; the jobs handed to
    [processQueueItem] are collected in order. *)
Fixpoint drain_run (fuel : nat) (s : sched) : list queue_item * sched :=
  match fuel with
  | O => ([], s)
  | S f =>
    match drain_tick s with
    | (s1, Some item) =>
      let (ex, s2) := drain_run f (drain_finish s1) in (item :: ex, s2)
    | (s1, None) => ([], s1)
    end
  end.

End AIServiceOps.

(* ================================================================== *)
(** ** Alert model: statics, the update route and [addDetection] *)

Module AlertOps.

Import AlertModel.

(** [Alert.getActiveAlerts()] at time [now]: [status: 'active'] and
    [expiresAt > now] or [expiresAt: null]. *)
Definition getActiveAlerts (now : Z) (s : alert_store) : alert_store :=
  List.filter (fun a => status_eqb (al_status a) Active &&
                        match al_expiresAt a with
                        | Some e => Z.ltb now e
                        | None => true
                        end) s.

(** [Alert.getCriticalAlerts()]. *)
Definition getCriticalAlerts (s : alert_store) : alert_store :=
  List.filter (fun a => severity_eqb (al_severity a) Critical &&
                        status_eqb (al_status a) Active) s.

Definition set_detections (ds : list detection) (a : alert) : alert :=
  mkAlert (al_id a) (al_streamId a) (al_type a) (al_category a) (al_title a)
    (al_message a) (al_severity a) (al_status a) ds (al_timestamp a)
    (al_acknowledgedAt a) (al_acknowledgedBy a) (al_resolvedAt a)
    (al_resolvedBy a) (al_expiresAt a).

(** [alert.addDetection(detection)] at time [now]: push
    [{ ...detection, timestamp: new Date() }], then [save()]. *)
Definition addDetection (now : Z) (d : detection) (a : alert) : alert :=
  pre_save now (set_detections (al_detections a ++
                  [mkDetection (d_label d) (d_confidence d) (Some now)])%list a).

(** The fields of the body of [PUT /api/alerts/:id] that the alert record
    carries ([None]: [undefined]). *)
Record alert_patch := mkPatch {
  pt_title : option string;
  pt_message : option string;
  pt_severity : option severity
}.

(** [PUT /api/alerts/:id] on a found alert at time [now]: copy the given
    fields, then [save()]. *)
Definition updateAlert (now : Z) (p : alert_patch) (a : alert) : alert :=
  pre_save now
    (mkAlert (al_id a) (al_streamId a) (al_type a) (al_category a)
       (default (al_title a) (pt_title p)) (default (al_message a) (pt_message p))
       (default (al_severity a) (pt_severity p)) (al_status a) (al_detections a)
       (al_timestamp a) (al_acknowledgedAt a) (al_acknowledgedBy a)
       (al_resolvedAt a) (al_resolvedBy a) (al_expiresAt a)).

(** The invariant established by the pre-save hook: an alert has an expiry
    exactly when it is not critical. *)
Definition valid_expiry (a : alert) : bool :=
  match al_expiresAt a with
  | None => severity_eqb (al_severity a) Critical
  | Some _ => negb (severity_eqb (al_severity a) Critical)
  end.

End AlertOps.

(* ================================================================== *)
(** ** AlertService.checkForAlerts and the Stream statistics *)

Module AlertServiceOps.

Import AlertModel.

Definition alert_type_eqb (a b : alert_type) : bool :=
  match a, b with
  | TDetection, TDetection | TError, TError | TWarning, TWarning
  | TInfo, TInfo | TCritical, TCritical => true
  | _, _ => false
  end.

(** The fields of a [Stream] document read by [checkForAlerts], with its
    [statistics]. *)
Record stream_stats := mkStats {
  st_id : string;
  st_name : string;
  st_status : string;
  st_lastProcessed : option Z;  (* a [Date], or unset *)
  st_totalFrames : Z;
  st_processedFrames : Z;
  st_errors : Z
}.

(** [stream.updateStatistics(frameCount, hasError)] at time [now]. *)
Definition updateStatistics (frameCount : Z) (hasError : bool) (now : Z)
    (st : stream_stats) : stream_stats :=
  mkStats (st_id st) (st_name st) (st_status st) (Some now)
    (st_totalFrames st + frameCount) (st_processedFrames st + frameCount)
    (if hasError then st_errors st + 1 else st_errors st).

(** The [health] virtual of the [Stream] schema at time [now]. *)
Definition health (now : Z) (st : stream_stats) : string :=
  match st_lastProcessed st with
  | None => "unknown"
  | Some lp =>
    if Z.ltb (now - lp) (5 * 60 * 1000) then "healthy"
    else if Z.ltb (now - lp) (30 * 60 * 1000) then "warning"
    else "error"
  end.

(** [Alert.findOne({ streamId, type, title, status: 'active' })] found a
    document. *)
Definition exists_active (sid : string) (ty : alert_type) (title : string)
    (s : alert_store) : bool :=
  existsb (fun a => String.eqb (al_streamId a) sid && alert_type_eqb (al_type a) ty &&
                    String.eqb (al_title a) title && status_eqb (al_status a) Active) s.

(** Number of such documents. *)
Definition count_typed (sid : string) (ty : alert_type) (title : string)
    (s : alert_store) : nat :=
  length (List.filter (fun a => String.eqb (al_streamId a) sid && alert_type_eqb (al_type a) ty &&
                                String.eqb (al_title a) title && status_eqb (al_status a) Active) s).

(** [x.toFixed(1)] for [x >= 0], computed on the exact value. *)
Definition to_fixed1 (x : Q) : string :=
  let y := (x * 10 + (1 # 2))%Q in
  let n := Z.to_nat (Qnum y / Zpos (Qden y)) in
  nat_to_string (n / 10) ++ "." ++ nat_to_string (n mod 10).

(** [errors / totalFrames] *)
Definition error_rate (st : stream_stats) : Q :=
  inject_Z (st_errors st) / inject_Z (st_totalFrames st).

(** The first loop of [checkForAlerts] at time [now]. *)
Fixpoint check_unresponsive (now : Z) (streams : list stream_stats)
    (al : alert_store) : alert_store :=
  match streams with
  | [] => al
  | st :: rest =>
    let al' :=
      match st_lastProcessed st with
      | Some lp =>
        if Z.ltb (5 * 60 * 1000) (now - lp) then
          if exists_active (st_id st) TWarning "Stream Unresponsive" al then al
          else createSystemAlert (st_id st) TWarning "Stream Unresponsive"
                 ("Stream " ++ st_name st ++ " has not processed frames for " ++
                  nat_to_string (Z.to_nat ((now - lp) / 1000)) ++ " seconds")
                 Medium now al
        else al
      | None => al
      end in
    check_unresponsive now rest al'
  end.

(** The second loop of [checkForAlerts] at time [now]. *)
Fixpoint check_error_rate (now : Z) (streams : list stream_stats)
    (al : alert_store) : alert_store :=
  match streams with
  | [] => al
  | st :: rest =>
    let al' :=
      if Z.ltb 0 (st_totalFrames st) then
        if negb (Qle_bool (error_rate st) (1 # 10)) then
          if exists_active (st_id st) TError "High Error Rate" al then al
          else createSystemAlert (st_id st) TError "High Error Rate"
                 ("Stream " ++ st_name st ++ " has a high error rate: " ++
                  to_fixed1 (error_rate st * 100) ++ "%")
                 High now al
        else al
      else al in
    check_error_rate now rest al'
  end.

(** [checkForAlerts()] at time [now] over the stream collection [db]
    ([Stream.find({ status: 'active' })]). *)
Definition checkForAlerts (now : Z) (db : list stream_stats) (al : alert_store)
    : alert_store :=
  let streams := List.filter (fun st => String.eqb (st_status st) "active") db in
  check_error_rate now streams (check_unresponsive now streams al).

(** The conditions of the two loops. *)
Definition unresponsive_due (now : Z) (st : stream_stats) : bool :=
  match st_lastProcessed st with
  | Some lp => Z.ltb (5 * 60 * 1000) (now - lp)
  | None => false
  end.

Definition high_error_rate (st : stream_stats) : bool :=
  Z.ltb 0 (st_totalFrames st) && negb (Qle_bool (error_rate st) (1 # 10)).

End AlertServiceOps.

(* ================================================================== *)
(** ** StreamService: restart, update, status, worker messages, cleanup *)

Module StreamServiceOps.

Import AlertModel StreamService.

(** [restartStream(streamId)]: [stopStream], one second of waiting, then
    [startStream] at time [t]. *)
Definition restartStream (streamId : string) (t : Z) (s : service)
    : service * (svc_error + stream_rec) :=
  startStream streamId t (fst (stopStream streamId s)).

(** [updateStream(streamId)]: restart when the stored status is
    ['active']; the document read first is returned. *)
Definition updateStream (streamId : string) (t : Z) (s : service)
    : service * (svc_error + stream_rec) :=
  match streams_db s !! streamId with
  | None => (s, inl StreamNotFound)
  | Some st =>
    if String.eqb (sr_status st) "active" then
      match restartStream streamId t s with
      | (s', inl e) => (s', inl e)
      | (s', inr _) => (s', inr st)
      end
    else (s, inr st)
  end.

(** [updateStreamStatus(streamId, status)]. *)
Definition updateStreamStatus (streamId status : string) (s : service)
    : service * (svc_error + stream_rec) :=
  match streams_db s !! streamId with
  | None => (s, inl StreamNotFound)
  | Some st =>
    let st' := with_status status st in
    (mkService (workers s) (activeStreams s) (<[streamId := st']> (streams_db s))
       (alerts_db s), inr st')
  end.

(** [handleStreamError(streamId, error)] at time [now]; an exception of
    [updateStreamStatus] is caught and ends the handler, and so is the
    rejection of the alert, created with [data = { error: error.message }]. *)
Definition handleStreamError (streamId message : string) (now : Z) (s : service)
    : service :=
  match updateStreamStatus streamId "error" s with
  | (_, inl _) => s
  | (s1, inr _) =>
    match streams_db s1 !! streamId with
    | Some st =>
      match createSystemAlertWith DataErrorString streamId TError "Stream Processing Error"
              ("Stream " ++ sr_name st ++ " encountered an error: " ++ message)
              High now (alerts_db s1) with
      | Some al => mkService (workers s1) (activeStreams s1) (streams_db s1) al
      | None => s1
      end
    | None => s1
    end
  end.

(** The [modelType] enum of [resultSchema]. *)
Definition result_model_types : list string :=
  ["object-detection"; "defect-analysis"; "face-recognition"; "motion-detection"].

(** [result.save()] in [handleAIResult] succeeds: [modelType] is in the
    enum and every detection confidence lies in [[0, 1]]; [rest_ok] stands
    for the other paths the schema checks ([frameNumber], [processingTime]
    and [confidence] present, the last in [[0, 1]]; each detection with a
    [label] and a complete [bbox]). *)
Definition result_valid (modelType : string) (dets : list detection) (rest_ok : bool) : bool :=
  existsb (String.eqb modelType) result_model_types &&
  forallb (fun d => Qle_bool 0 (d_confidence d) && Qle_bool (d_confidence d) 1) dets &&
  rest_ok.

(** [handleAIResult(streamId, data)] at time [now], as far as the service
    state goes: the [Result] save, then the detection alert; a rejection of
    either is caught and ends the handler. *)
Definition handleAIResult (streamId modelType : string) (dets : list detection)
    (rest_ok : bool) (now : Z) (s : service) : service :=
  if negb (result_valid modelType dets rest_ok) then s else
  let al' :=
    match dets with
    | [] => Some (alerts_db s)
    | _ =>
      match List.filter (fun d => negb (Qle_bool (d_confidence d) (4 # 5))) dets with
      | [] => Some (alerts_db s)
      | hc => createDetectionAlert streamId hc modelType now (alerts_db s)
      end
    end in
  match al' with
  | Some al => mkService (workers s) (activeStreams s) (streams_db s) al
  | None => s
  end.

(** A message posted by a worker: [{ type, data }]; for [ai_result], the
    [modelType], the [detections] and whether the remaining fields pass
    the [Result] schema. *)
Inductive worker_message :=
  | WFrameProcessed
  | WAIResult (modelType : string) (dets : list detection) (rest_ok : bool)
  | WError (message : string)
  | WStatusUpdate (status : string)
  | WOther (type_ : string).

(** [handleWorkerMessage(streamId, message)] at time [now]; every
    exception is caught. *)
Definition handleWorkerMessage (streamId : string) (m : worker_message) (now : Z)
    (s : service) : service :=
  match m with
  | WFrameProcessed => handleFrameProcessed streamId now s
  | WAIResult mt dets ok => handleAIResult streamId mt dets ok now s
  | WError msg => handleStreamError streamId msg now s
  | WStatusUpdate st =>
    match updateStreamStatus streamId st s with
    | (s', inr _) => s'
    | (_, inl _) => s
    end
  | WOther _ => s
  end.

(** The loop [for (const [streamId] of this.activeStreams) stopStream]:
    [stopStream] deletes only the entry being visited, so the loop visits
    the keys present when it starts. *)
Fixpoint stop_all (ids : list string) (s : service) : service :=
  match ids with
  | [] => s
  | k :: rest => stop_all rest (fst (stopStream k s))
  end.

(** [cleanup()]: stop every active stream, terminate the remaining
    workers, clear both maps. *)
Definition cleanup (s : service) : service :=
  let s1 := stop_all (map fst (activeStreams s)) s in
  mkService [] [] (streams_db s1) (alerts_db s1).

End StreamServiceOps.

(* ================================================================== *)
(** ** StreamWorker: stop, restart and configuration updates *)

Module StreamWorkerOps.

Import StreamWorker.

(** [stop()]: clear the interval and post the status [inactive]. *)
Definition stop (w : worker) : worker * list msg :=
  (mkWorker (streamData w) false (frameCount w) (lastFrameTime w) None,
   [MsgStatusUpdate "inactive"]).

(** The ['restart'] message: [stop()], one second, [start()] at [now]. *)
Definition restart (now : Z) (w : worker) : worker * list msg :=
  let (w1, m1) := stop w in
  let (w2, m2) := start now w1 in
  (w2, (m1 ++ m2)%list).

(** The top-level keys of [data] in an ['update_config'] message
    ([None]: absent); [settings] is replaced as a whole. *)
Record config_patch := mkConfigPatch {
  cp_name : option string;
  cp_source_type : option string;
  cp_settings : option (Q * Z * Z);   (* fps, width, height *)
  cp_aiModels : option (list (string * bool))
}.

(** [worker.streamData = { ...worker.streamData, ...data }] *)
Definition update_config (p : config_patch) (w : worker) : worker :=
  let c := streamData w in
  let '(fps, wd, ht) :=
    default (fc_fps c, fc_width c, fc_height c) (cp_settings p) in
  mkWorker
    (mkFeed (default (fc_name c) (cp_name p)) (default (fc_source_type c) (cp_source_type p))
       fps wd ht (default (fc_aiModels c) (cp_aiModels p)))
    (isRunning w) (frameCount w) (lastFrameTime w) (processingInterval w).

(** The frame numbers of the [frame_processed] messages. *)
Definition frame_numbers (ms : list msg) : list nat :=
  flat_map (fun m => match m with MsgFrameProcessed n => [n] | _ => [] end) ms.

(** The frame numbers of the [frame_processed] and [ai_result] messages. *)
Definition posted_numbers (ms : list msg) : list nat :=
  flat_map (fun m => match m with
                     | MsgFrameProcessed n | MsgAIResult _ n => [n]
                     | _ => []
                     end) ms.

(** The active models of the configuration, in the order in which
    [processFrameWithAI] awaits them. *)
Definition active_models (w : worker) : list string :=
  map fst (List.filter (fun m => snd m) (fc_aiModels (streamData w))).

(** A frame in flight: the active models whose [processWithAIModel] has not
    resumed yet; the first one is waiting on the [setTimeout] of
    [simulateAIProcessing]. *)
Definition in_flight := list string.

(** What the worker's event loop runs next: the interval callback
    [processFrame()] at [now], with capture outcome [cap], or the timer of
    the [i]-th frame in flight, firing at [now]. *)
Inductive wevent :=
  | ETick (now : Z) (cap : option frame)
  | EResume (i : nat) (now : Z).

(** The end of [processFrame] once [processFrameWithAI] has settled: stamp
    [lastFrameTime] and post [frame_processed] with [this.frameCount] as it
    is at that moment. *)
Definition frame_done (now : Z) (w : worker) : worker * list msg :=
  (mkWorker (streamData w) (isRunning w) (frameCount w) (Some now) (processingInterval w),
   [MsgFrameProcessed (frameCount w)]).

(** The part of [processFrame()] that runs when the interval fires: the
    increment, the capture and, with no active model, the whole frame;
    otherwise the frame waits on the timer of its first model.
    [setInterval] does not await the returned promise, so earlier frames
    may still be in flight. *)
Definition tick_async (now : Z) (cap : option frame) (w : worker) (fl : list in_flight)
    : worker * list in_flight * list msg :=
  if negb (isRunning w) then (w, fl, [])
  else
    let w1 := mkWorker (streamData w) (isRunning w) (S (frameCount w))
                (lastFrameTime w) (processingInterval w) in
    match captureFrame cap w1 with
    | None => (w1, fl, [])
    | Some _ =>
      match active_models w1 with
      | [] => let (w2, ms) := frame_done now w1 in (w2, fl, ms)
      | ms => (w1, (fl ++ [ms])%list, [])
      end
    end.

Definition remove_at {A} (i : nat) (l : list A) : list A :=
  (firstn i l ++ skipn (S i) l)%list.

(** The timer of the [i]-th frame in flight fires at [now]: its model posts
    [ai_result] with [this.frameCount] as it is at that moment; then the
    next model starts its timer or, after the last one, the frame ends. *)
Definition resume_async (i : nat) (now : Z) (w : worker) (fl : list in_flight)
    : worker * list in_flight * list msg :=
  match nth_error fl i with
  | Some [m] =>
    let (w2, ms) := frame_done now w in
    (w2, remove_at i fl, MsgAIResult m (frameCount w) :: ms)
  | Some (m :: rest) => (w, <[i := rest]> fl, [MsgAIResult m (frameCount w)])
  | _ => (w, fl, [])
  end.

Definition step_async (e : wevent) (w : worker) (fl : list in_flight)
    : worker * list in_flight * list msg :=
  match e with
  | ETick now cap => tick_async now cap w fl
  | EResume i now => resume_async i now w fl
  end.

(** A run of the worker's event loop over [evs]; messages in order. *)
Fixpoint run_async (evs : list wevent) (w : worker) (fl : list in_flight)
    : worker * list in_flight * list msg :=
  match evs with
  | [] => (w, fl, [])
  | e :: rest =>
    let '(w1, fl1, m1) := step_async e w fl in
    let '(w2, fl2, m2) := run_async rest w1 fl1 in
    (w2, fl2, (m1 ++ m2)%list)
  end.

End StreamWorkerOps.

(* ================================================================== *)
(** * Properties *)

(* ------------------------------------------------------------------ *)
(** ** The drain tick and submission of AIService *)

Module AIServiceFacts.

Import AIService.

Lemma insert_sorted_perm (x : queue_item) (l : list queue_item) :
  Permutation (insert_sorted x l) (x :: l).
Proof.
  induction l as [|y l IH]; simpl; [reflexivity|].
  destruct (Z.leb (cmp x y) 0); [reflexivity|].
  rewrite IH. apply perm_swap.
Qed.

Lemma js_sort_perm (l : list queue_item) : Permutation (js_sort l) l.
Proof.
  induction l as [|x l IH]; simpl; [reflexivity|].
  rewrite insert_sorted_perm. now apply perm_skip.
Qed.

Lemma rank_num (p : string) :
  is_prototype_key p = false -> rank p = PNum (rankZ p).
Proof.
  intros Hp. unfold rank, priorityOrder_get, rankZ.
  destruct (String.eqb_spec p "critical"); [reflexivity|].
  destruct (String.eqb_spec p "high"); [reflexivity|].
  destruct (String.eqb_spec p "medium"); [subst; reflexivity|].
  destruct (String.eqb_spec p "low"); [reflexivity|].
  now rewrite Hp.
Qed.


Lemma cmp_le_iff (x y : queue_item) :
  numeric x -> numeric y -> ((cmp x y <= 0)%Z <-> key_le x y).
Proof.
  unfold numeric, key_le, cmp. intros Hx Hy.
  rewrite (rank_num _ Hx), (rank_num _ Hy). simpl.
  destruct (Z.eqb_spec (rankZ (qi_priority x)) (rankZ (qi_priority y))); simpl; lia.
Qed.

Lemma key_le_refl (x : queue_item) : key_le x x.
Proof. unfold key_le; lia. Qed.

Lemma key_le_trans (x y z : queue_item) : key_le x y -> key_le y z -> key_le x z.
Proof. unfold key_le; lia. Qed.

Lemma key_le_total (x y : queue_item) : key_le x y \/ key_le y x.
Proof. unfold key_le; lia. Qed.

Lemma js_sort_head_min (l : list queue_item) (h : queue_item) (t : list queue_item) :
  Forall numeric l -> js_sort l = h :: t -> Forall (key_le h) l.
Proof.
  revert h t. induction l as [|x l IH]; intros h t Hn Hs; [constructor|].
  inversion Hn as [|? ? Hx Hl]; subst. simpl in Hs.
  destruct (js_sort l) as [|h' t'] eqn:E.
  - simpl in Hs. injection Hs as <- <-.
    pose proof (js_sort_perm l) as P. rewrite E in P.
    apply Permutation_nil in P. subst. constructor; [apply key_le_refl|constructor].
  - specialize (IH h' t' Hl eq_refl).
    assert (Hh' : numeric h').
    { pose proof (js_sort_perm l) as P. rewrite E in P.
      rewrite List.Forall_forall in Hl. apply Hl.
      eapply Permutation_in; [exact P|now left]. }
    simpl in Hs. destruct (Z.leb_spec (cmp x h') 0) as [Hc|Hc].
    + injection Hs as <- <-. apply (proj1 (cmp_le_iff _ _ Hx Hh')) in Hc.
      constructor; [apply key_le_refl|].
      eapply List.Forall_impl; [|exact IH]. intros y Hy. eapply key_le_trans; eauto.
    + injection Hs as <- <-.
      assert (key_le h' x).
      { destruct (key_le_total x h') as [K|K]; [|exact K].
        apply (proj2 (cmp_le_iff _ _ Hx Hh')) in K. lia. }
      constructor; assumption.
Qed.


(** Claim C1 (amended).  A drain tick that fires while an earlier tick is
    still awaiting [processQueueItem] does nothing.  A tick that fires
    while none is in flight, on a non-empty queue whose priorities are not
    names inherited from [Object.prototype], removes exactly one job (the
    rest of the queue is the other jobs), hands it to [processQueueItem] and
    marks the scheduler busy; that job has the highest rank (critical 4 >
    high 3 > medium 2 > low 1, any other string 2) and, among jobs of that
    rank, the earliest timestamp. *)
Theorem drain_tick_selects_highest (s : sched) :
  (isProcessing s = true -> drain_tick s = (s, None)) /\
  (isProcessing s = false -> processingQueue s <> [] ->
   Forall numeric (processingQueue s) ->
   exists item rest,
     drain_tick s = (mkSched rest true, Some item) /\
     Permutation (processingQueue s) (item :: rest) /\
     Forall (key_le item) (processingQueue s)).
Proof.
  split.
  - intros H. unfold drain_tick. now rewrite H.
  - intros Hidle Hne Hnum. unfold drain_tick. rewrite Hidle.
    assert (L : Nat.eqb (length (processingQueue s)) 0 = false).
    { destruct (processingQueue s); [congruence|reflexivity]. }
    rewrite L. simpl orb. cbv iota.
    destruct (js_sort (processingQueue s)) as [|item rest] eqn:E.
    + pose proof (js_sort_perm (processingQueue s)) as P. rewrite E in P.
      apply Permutation_nil in P. congruence.
    + exists item, rest. split; [reflexivity|]. split.
      * symmetry. rewrite <- E. apply js_sort_perm.
      * eapply js_sort_head_min; eassumption.
Qed.

(** The scenario of the spec: priorities low, critical, medium submitted in
    that order; the critical job is executed first. *)
Lemma drain_tick_selects_highest_witness :
  let jl := mkItem ("F1", "object-detection", 1%Z) "F1" "object-detection" 1 "low" in
  let jc := mkItem ("F2", "object-detection", 2%Z) "F2" "object-detection" 2 "critical" in
  let jm := mkItem ("F3", "object-detection", 3%Z) "F3" "object-detection" 3 "medium" in
  exists item rest,
    drain_tick (mkSched [jl; jc; jm] false) = (mkSched rest true, Some item) /\
    Permutation [jl; jc; jm] (item :: rest) /\
    Forall (key_le item) [jl; jc; jm].
Proof.
  intros jl jc jm.
  apply (proj2 (drain_tick_selects_highest (mkSched [jl; jc; jm] false)));
    [reflexivity | discriminate | repeat constructor].
Defined.

(** Claim C1 as stated fails: (1) a tick that fires while the previous
    job is still being processed (simulated processing takes 500 to 1500 ms
    against a 1000 ms interval) removes nothing from a non-empty queue;
    (2) a job whose priority is ["constructor"] is not ranked as medium:
    the comparator yields [NaN], read as [0], so it stays ahead of a
    critical job submitted after it and is executed first. *)
Lemma drain_tick_counterexample :
  let jc := mkItem ("F2", "object-detection", 1%Z) "F2" "object-detection" 1 "critical" in
  let jx := mkItem ("F1", "object-detection", 0%Z) "F1" "object-detection" 0 "constructor" in
  drain_tick (mkSched [jc] true) = (mkSched [jc] true, None) /\
  drain_tick (mkSched [jx; jc] false) = (mkSched [jc] true, Some jx).
Proof. split; reflexivity. Qed.

(** Claim C3 (amended).  [processStream] has no capacity bound: whenever
    the model is registered and the stream exists with a supported source
    type, the new item is appended at the end of the queue whatever its
    length, and the earlier items are kept unchanged in order; its only
    rejections are [ModelNotFound], [StreamNotFound] and
    [UnsupportedType]. *)
Theorem processStream_unbounded (models : model_registry)
    (db : gmap string stream_doc) (q : list queue_item)
    (streamId modelType : string) (now : Z) (supported : list string)
    (st : stream_doc) :
  models !! modelType = Some supported ->
  db !! streamId = Some st ->
  existsb (String.eqb (sd_source_type st)) supported = true ->
  exists item,
    processStream models db q streamId modelType now = inr ((q ++ [item])%list, item) /\
    length (q ++ [item]) = S (length q).
Proof.
  intros Hm Hs Ht. unfold processStream. rewrite Hm, Hs, Ht.
  eexists. split; [reflexivity|]. rewrite length_app. simpl. lia.
Qed.


Lemma processStream_unbounded_witness :
  exists item,
    processStream (<["object-detection" := ["rtsp"]]> (∅ : model_registry))
      (<["F1" := mkStreamDoc "Cam 1" "rtsp" (Some "high")]> (∅ : gmap string stream_doc))
      [] "F1" "object-detection" 7 = inr (([] ++ [item])%list, item) /\
    length ([] ++ [item]) = S (length (@nil queue_item)).
Proof.
  apply (processStream_unbounded _ _ [] "F1" "object-detection" 7 ["rtsp"]
           (mkStreamDoc "Cam 1" "rtsp" (Some "high"))); vm_compute; reflexivity.
Defined.

(** Claim C3 as stated fails: with 1000 jobs already queued (the claimed
    capacity), one more submission is accepted and the queue holds 1001
    jobs; no [QueueFull] rejection exists. *)
Lemma processStream_counterexample :
  let j0 := mkItem ("F1", "object-detection", 0%Z) "F1" "object-detection" 0 "medium" in
  match processStream (<["object-detection" := ["rtsp"]]> (∅ : model_registry))
          (<["F1" := mkStreamDoc "Cam 1" "rtsp" None]> (∅ : gmap string stream_doc))
          (repeat j0 1000) "F1" "object-detection" 5 with
  | inr (q', item) => length q' = 1001%nat /\ q' = (repeat j0 1000 ++ [item])%list
  | inl _ => False
  end.
Proof. vm_compute. split; reflexivity. Qed.

End AIServiceFacts.

(* ------------------------------------------------------------------ *)
(** ** Alerts: creation, transitions, expiry *)

Module AlertFacts.

Import AlertModel.

Lemma lookup_map {A B : Type} (f : A -> B) (l : list A) (i : nat) :
  map f l !! i = option_map f (l !! i).
Proof. revert i; induction l as [|x l IH]; intros [|i]; simpl; auto. Qed.

Ltac destruct_alert a :=
  destruct a as [? ? ? ? ? ? sev ? ? ? ? ? ? ? exp];
  unfold pre_save; simpl; destruct exp, sev.

Lemma pre_save_status (now : Z) (a : alert) : al_status (pre_save now a) = al_status a.
Proof. destruct_alert a; reflexivity. Qed.

Lemma pre_save_fields (now : Z) (a : alert) :
  al_streamId (pre_save now a) = al_streamId a /\
  al_title (pre_save now a) = al_title a /\
  al_severity (pre_save now a) = al_severity a /\
  al_type (pre_save now a) = al_type a.
Proof. destruct_alert a; repeat split. Qed.

Lemma createSystemAlert_shape (streamId : string) (ty : alert_type)
    (title message : string) (sev : severity) (now : Z) (s : alert_store) :
  exists a,
    createSystemAlert streamId ty title message sev now s = (s ++ [a])%list /\
    al_streamId a = streamId /\ al_type a = ty /\ al_title a = title /\
    al_severity a = sev /\ al_status a = Active.
Proof.
  eexists. split; [reflexivity|]. unfold new_alert.
  destruct (pre_save_fields now
    (mkAlert (length s) streamId ty "system" title message sev Active [] now
       None None None None None)) as (E1 & E2 & E3 & E4).
  rewrite E1, E2, E3, E4, pre_save_status. repeat split.
Qed.


Lemma count_active_app (sid title : string) (s1 s2 : alert_store) :
  count_active sid title (s1 ++ s2)%list = (count_active sid title s1 + count_active sid title s2)%nat.
Proof. unfold count_active. now rewrite List.filter_app, length_app. Qed.

Lemma createDetectionAlert_shape (streamId modelType : string)
    (dets : list detection) (now : Z) (s : alert_store) :
  category_ok modelType = true ->
  exists a,
    createDetectionAlert streamId dets modelType now s = Some (s ++ [a])%list /\
    al_streamId a = streamId /\ al_title a = detection_title (length dets) /\
    al_status a = Active.
Proof.
  intros Hc. unfold createDetectionAlert. rewrite Hc.
  eexists. split; [reflexivity|]. unfold new_alert.
  split; [|split].
  - rewrite (proj1 (pre_save_fields _ _)). reflexivity.
  - rewrite (proj1 (proj2 (pre_save_fields _ _))). reflexivity.
  - rewrite pre_save_status. reflexivity.
Qed.

Lemma createDetectionAlert_rejected (streamId modelType : string)
    (dets : list detection) (now : Z) (s : alert_store) :
  category_ok modelType = false ->
  createDetectionAlert streamId dets modelType now s = None.
Proof. intros Hc. unfold createDetectionAlert. now rewrite Hc. Qed.

Lemma on_outcome_significant (streamId modelType : string) (threshold : Q)
    (dets : list detection) (now : Z) (s : alert_store) :
  let significant := List.filter (fun d => negb (Qle_bool (d_confidence d) threshold)) dets in
  significant <> [] ->
  on_outcome streamId modelType threshold dets now s =
  createDetectionAlert streamId significant modelType now s.
Proof.
  intros sig Hne. unfold on_outcome. subst sig.
  destruct dets as [|d ds]; [simpl in Hne; congruence|].
  destruct (List.filter _ (d :: ds)); [congruence|reflexivity].
Qed.

(** Claim C4 (amended).  The detection path never looks for an existing
    alert: when an outcome has significant detections (confidence above
    the model threshold) and the model type is a [category] the [Alert]
    schema accepts, [createDetectionAlert] appends a fresh [active] alert
    titled ["<n> objects detected"] and leaves every existing alert
    unchanged, so the number of active alerts for that (feed, title) pair
    grows by one at every such outcome; for a model type outside the
    [category] enum the save is rejected and nothing is stored. *)
Theorem on_outcome_appends (streamId modelType : string) (threshold : Q)
    (dets : list detection) (now : Z) (s : alert_store) :
  let significant := List.filter (fun d => negb (Qle_bool (d_confidence d) threshold)) dets in
  significant <> [] ->
  (category_ok modelType = true ->
   exists a,
     on_outcome streamId modelType threshold dets now s = Some (s ++ [a])%list /\
     al_status a = Active /\
     count_active streamId (detection_title (length significant)) (s ++ [a])%list =
     S (count_active streamId (detection_title (length significant)) s)) /\
  (category_ok modelType = false ->
   on_outcome streamId modelType threshold dets now s = None).
Proof.
  intros sig Hne.
  assert (E : on_outcome streamId modelType threshold dets now s =
              createDetectionAlert streamId sig modelType now s)
    by (apply on_outcome_significant; exact Hne).
  rewrite E. split.
  - intros Hc.
    destruct (createDetectionAlert_shape streamId modelType sig now s Hc)
      as (a & Ha & Hid & Ht & Hst).
    exists a. rewrite Ha. split; [reflexivity|]. split; [exact Hst|].
    rewrite count_active_app. unfold count_active at 2. simpl.
    rewrite Hid, Ht, Hst, !String.eqb_refl. simpl. lia.
  - apply createDetectionAlert_rejected.
Qed.

Lemma on_outcome_appends_witness :
  let dets := [mkDetection "person" (9 # 10) None; mkDetection "car" (95 # 100) None] in
  (exists a,
     on_outcome "F1" "object-detection" (7 # 10) dets 100 [] = Some ([] ++ [a])%list /\
     al_status a = Active /\
     count_active "F1" (detection_title 2) ([] ++ [a])%list =
     S (count_active "F1" (detection_title 2) [])) /\
  on_outcome "F1" "face-recognition" (7 # 10) dets 100 [] = None.
Proof.
  intros dets. split.
  - apply (on_outcome_appends "F1" "object-detection" (7 # 10) dets 100 []);
      [vm_compute; discriminate|reflexivity].
  - apply (on_outcome_appends "F1" "face-recognition" (7 # 10) dets 100 []);
      [vm_compute; discriminate|reflexivity].
Defined.

(** Claim C4 as stated fails: two outcomes of feed F1 with the same two
    significant detections leave two [active] alerts titled
    ["2 objects detected"] for F1. *)
Lemma on_outcome_counterexample :
  let dets := [mkDetection "person" (9 # 10) None; mkDetection "car" (95 # 100) None] in
  match on_outcome "F1" "object-detection" (7 # 10) dets 100 [] with
  | Some s1 =>
    option_map (count_active "F1" (detection_title 2))
      (on_outcome "F1" "object-detection" (7 # 10) dets 200 s1)
  | None => None
  end = Some 2%nat.
Proof. vm_compute. reflexivity. Qed.


(** Claim C5 (amended).  The transitions are unconditional: whatever the
    current status of the alert (including [resolved] and [dismissed]),
    [acknowledge], [resolve] and [dismiss] set it to [acknowledged],
    [resolved] and [dismissed] respectively and never fail with an
    invalid-transition error; [bulk-acknowledge] and [bulk-resolve] likewise
    overwrite the status of every alert whose id is listed. *)
Theorem transitions_unconditional (now : Z) (by_ : string) (a : alert) :
  al_status (acknowledge now by_ a) = Acknowledged /\
  al_status (resolve now by_ a) = Resolved /\
  al_status (dismiss now a) = Dismissed /\
  (forall (ids : list nat) (s : alert_store) (i : nat),
     s !! i = Some a -> existsb (Nat.eqb (al_id a)) ids = true ->
     al_status <$> (bulk_acknowledge ids now by_ s !! i) = Some Acknowledged /\
     al_status <$> (bulk_resolve ids now by_ s !! i) = Some Resolved).
Proof.
  unfold acknowledge, resolve, dismiss. rewrite !pre_save_status.
  split; [reflexivity|]. split; [reflexivity|]. split; [reflexivity|].
  intros ids s i Hi Hid. unfold bulk_acknowledge, bulk_resolve.
  rewrite !lookup_map, Hi. simpl. rewrite Hid. split; reflexivity.
Qed.

Lemma transitions_unconditional_witness :
  let a := mkAlert 3 "F1" TWarning "system" "Stream Unresponsive" "m" Medium
             Dismissed [] 0 None None None None None in
  al_status <$> (bulk_acknowledge [3%nat] 50 "op" [a] !! 0%nat) = Some Acknowledged /\
  al_status <$> (bulk_resolve [3%nat] 50 "op" [a] !! 0%nat) = Some Resolved.
Proof.
  intros a.
  apply (proj2 (proj2 (proj2 (transitions_unconditional 50 "op" a))) [3%nat] [a] 0%nat);
    reflexivity.
Defined.

(** Claim C5 as stated fails: acknowledging a resolved alert succeeds and
    moves it back to [acknowledged]; resolving a dismissed alert succeeds
    and makes it [resolved]. *)
Lemma transitions_counterexample :
  let r := mkAlert 0 "F1" TDetection "object-detection" "2 objects detected" "m"
             Medium Resolved [] 0 None None (Some 5%Z) (Some "op") (Some day_ms) in
  let d := mkAlert 1 "F1" TDetection "object-detection" "2 objects detected" "m"
             Medium Dismissed [] 0 None None None None (Some day_ms) in
  al_status (acknowledge 10 "op" r) = Acknowledged /\
  al_status (resolve 10 "op" d) = Resolved.
Proof. split; reflexivity. Qed.

(** Claim C9.  On creation ([save] of a new document at time [t]) a
    non-critical alert without an expiry gets [t + 24 h]; after any save a
    critical alert has no expiry; [cleanExpiredAlerts] at time [now] maps
    each alert, in place, to itself with status [dismissed] exactly when it
    has an expiry before [now] and status [active] or [acknowledged], and
    leaves it unchanged otherwise. *)
Theorem alert_expiry (t now : Z) (a : alert) :
  (al_severity a <> Critical -> al_expiresAt a = None ->
   al_expiresAt (pre_save t a) = Some (t + day_ms)%Z) /\
  (al_severity a = Critical -> al_expiresAt (pre_save t a) = None) /\
  (expired_match now a = true <->
   exists e, al_expiresAt a = Some e /\ (e < now)%Z /\
             (al_status a = Active \/ al_status a = Acknowledged)) /\
  (forall (s : alert_store) (i : nat), s !! i = Some a ->
     cleanExpiredAlerts now s !! i =
     Some (if expired_match now a then set_status Dismissed a else a)).
Proof.
  split; [|split; [|split]].
  - intros Hs He. destruct a as [? ? ? ? ? ? sev ? ? ? ? ? ? ? exp].
    simpl in *. subst exp. unfold pre_save. simpl.
    destruct sev; simpl; try reflexivity. congruence.
  - intros Hs. destruct a as [? ? ? ? ? ? sev ? ? ? ? ? ? ? exp].
    simpl in *. subst sev. unfold pre_save. simpl. destruct exp; reflexivity.
  - unfold expired_match. destruct (al_expiresAt a) as [e|].
    + rewrite andb_true_iff, Z.ltb_lt, orb_true_iff. split.
      * intros [He Hst]. exists e. split; [reflexivity|]. split; [exact He|].
        destruct Hst as [H|H]; [left|right];
          destruct (al_status a); simpl in H; congruence.
      * intros (e' & Ee & He & Hst). injection Ee as <-. split; [exact He|].
        destruct Hst as [-> | ->]; [left|right]; reflexivity.
    + split; [discriminate|]. intros (e & Ee & _). discriminate.
  - intros s i Hi. unfold cleanExpiredAlerts. rewrite lookup_map, Hi. reflexivity.
Qed.

Lemma alert_expiry_witness :
  let m := mkAlert 0 "F1" TWarning "system" "Stream Unresponsive" "m" Medium
             Active [] 1000 None None None None None in
  al_expiresAt (pre_save 1000 m) = Some (1000 + day_ms)%Z.
Proof.
  intros m. apply (proj1 (alert_expiry 1000 0 m)); [discriminate | reflexivity].
Defined.

End AlertFacts.

(* ------------------------------------------------------------------ *)
(** ** StreamWorker: start and the acquisition tick *)

Module StreamWorkerFacts.

Import StreamWorker.




Lemma processFrame_running (now : Z) (cap : option frame) (w : worker) :
  isRunning w = true ->
  isRunning (fst (processFrame now cap w)) = true /\
  frameCount (fst (processFrame now cap w)) = S (frameCount w) /\
  Forall (fun m => is_error_msg m = false) (snd (processFrame now cap w)) /\
  (cap = None -> snd (processFrame now cap w) = [] /\
                 lastFrameTime (fst (processFrame now cap w)) = lastFrameTime w).
Proof.
  intros Hr. unfold processFrame. rewrite Hr. cbn [negb].
  destruct (captureFrame cap _) as [f|] eqn:Ecap; simpl.
  - split; [reflexivity|]. split; [reflexivity|]. split.
    + apply Forall_app. split; [|repeat constructor].
      unfold processFrameWithAI. apply List.Forall_forall. intros m Hm.
      apply in_map_iff in Hm. destruct Hm as (x & <- & _). reflexivity.
    + intros ->. unfold captureFrame in Ecap.
      destruct (existsb _ _) in Ecap; discriminate.
  - repeat split; constructor.
Qed.

(** Claim C6 (amended).  A capture failure (the capture throws, or the
    source type is unsupported) is swallowed by [captureFrame]: the tick
    still counts the frame but posts no message at all, neither an [error]
    nor a [frame_processed] one.  Over any sequence of ticks a running
    worker stays running, whatever the number of consecutive failures, and
    posts no [error] message; no failure counter is kept. *)
Theorem run_ticks_never_stops (ticks : list (Z * option frame)) (w : worker) :
  isRunning w = true ->
  isRunning (fst (run_ticks ticks w)) = true /\
  frameCount (fst (run_ticks ticks w)) = (frameCount w + length ticks)%nat /\
  Forall (fun m => is_error_msg m = false) (snd (run_ticks ticks w)) /\
  (Forall (fun tc => snd tc = None) ticks -> snd (run_ticks ticks w) = []).
Proof.
  revert w. induction ticks as [|[t cap] rest IH]; intros w Hr.
  - simpl. split; [exact Hr|]. split; [lia|]. split; [constructor|reflexivity].
  - simpl. destruct (processFrame t cap w) as [w1 m1] eqn:E1.
    destruct (processFrame_running t cap w Hr) as (R1 & C1 & F1 & N1).
    rewrite E1 in R1, C1, F1, N1. simpl in R1, C1, F1, N1.
    destruct (IH w1 R1) as (R2 & C2 & F2 & N2).
    destruct (run_ticks rest w1) as [w2 m2] eqn:E2. simpl in *.
    split; [exact R2|]. split; [lia|]. split; [apply Forall_app; now split|].
    intros Hf. inversion Hf as [|? ? Hc Hrest]; subst. simpl in Hc.
    rewrite (proj1 (N1 Hc)), (N2 Hrest). reflexivity.
Qed.

(** Three consecutive capture failures on a running worker. *)
Lemma run_ticks_never_stops_witness :
  let w := fst (start 0 (new_worker (mkFeed "Cam 1" "rtsp" 10 1920 1080 []))) in
  isRunning (fst (run_ticks [(100%Z, None); (200%Z, None); (300%Z, None)] w)) = true /\
  frameCount (fst (run_ticks [(100%Z, None); (200%Z, None); (300%Z, None)] w)) =
    (frameCount w + 3)%nat /\
  Forall (fun m => is_error_msg m = false)
    (snd (run_ticks [(100%Z, None); (200%Z, None); (300%Z, None)] w)) /\
  (Forall (fun tc : Z * option frame => snd tc = None) [(100%Z, None); (200%Z, None); (300%Z, None)] ->
   snd (run_ticks [(100%Z, None); (200%Z, None); (300%Z, None)] w) = []).
Proof.
  intros w. apply (run_ticks_never_stops [(100%Z, None); (200%Z, None); (300%Z, None)] w).
  reflexivity.
Defined.

(** Claim C6 as stated fails: after three consecutive capture failures the
    worker is still running and has posted no message, in particular no
    [error] event; the fourth tick, a successful capture, is processed
    normally. *)
Lemma run_ticks_counterexample :
  let w := fst (start 0 (new_worker (mkFeed "Cam 1" "rtsp" 10 1920 1080 []))) in
  let r := run_ticks [(100%Z, None); (200%Z, None); (300%Z, None)] w in
  isRunning (fst r) = true /\ snd r = [] /\
  snd (processFrame 400 (Some (mkFrame 1920 1080 400)) (fst r)) = [MsgFrameProcessed 4].
Proof. vm_compute. repeat split. Qed.

End StreamWorkerFacts.

(* ------------------------------------------------------------------ *)
(** ** StreamService: registries, stop and the health sweep *)

Module StreamServiceFacts.

Import AlertModel StreamService.

Lemma map_has_existsb {V} (k : string) (m : js_map V) :
  map_has k m = existsb (fun kv => String.eqb (fst kv) k) m.
Proof.
  unfold map_has, map_get. induction m as [|[k' v'] m IH]; simpl; [reflexivity|].
  destruct (String.eqb k' k); [reflexivity|exact IH].
Qed.

Lemma map_has_in {V} (k : string) (m : js_map V) :
  map_has k m = true <-> In k (map fst m).
Proof.
  rewrite map_has_existsb, existsb_exists. split.
  - intros ([k' v'] & Hin & Heq). apply String.eqb_eq in Heq. simpl in Heq. subst.
    apply in_map_iff. now exists (k, v').
  - intros Hin. apply in_map_iff in Hin. destruct Hin as ([k' v'] & <- & Hin).
    exists (k', v'). split; [exact Hin|]. apply String.eqb_refl.
Qed.

Lemma map_set_keys {V} (k : string) (v : V) (m : js_map V) :
  map fst (map_set k v m) =
  if map_has k m then map fst m else (map fst m ++ [k])%list.
Proof.
  unfold map_set. destruct (map_has k m); [|now rewrite map_app].
  rewrite map_map. apply map_ext. intros [k' v'].
  simpl. destruct (String.eqb_spec k' k); simpl; congruence.
Qed.

Lemma map_set_has {V} (k : string) (v : V) (m : js_map V) :
  map_has k (map_set k v m) = true.
Proof.
  apply map_has_in. rewrite map_set_keys.
  destruct (map_has k m) eqn:E.
  - now apply map_has_in.
  - apply in_or_app. right. now left.
Qed.

Lemma map_set_nodup {V} (k : string) (v : V) (m : js_map V) :
  NoDup (map fst m) -> NoDup (map fst (map_set k v m)).
Proof.
  intros Hn. rewrite map_set_keys. destruct (map_has k m) eqn:E; [exact Hn|].
  apply NoDup_app. split; [exact Hn|]. split; [|apply NoDup_singleton].
  intros x Hx Hy. apply list_elem_of_singleton in Hy. subst.
  apply list_elem_of_In, map_has_in in Hx. congruence.
Qed.

Lemma map_delete_has {V} (k : string) (m : js_map V) :
  map_has k (map_delete k m) = false.
Proof.
  rewrite map_has_existsb. unfold map_delete.
  induction m as [|[k' v'] m IH]; simpl; [reflexivity|].
  destruct (String.eqb_spec k' k); simpl; [exact IH|].
  apply String.eqb_neq in n. now rewrite n.
Qed.

Lemma map_delete_get {V} (k k' : string) (m : js_map V) :
  k' <> k -> map_get k' (map_delete k m) = map_get k' m.
Proof.
  intros Hne. unfold map_get, map_delete.
  induction m as [|[k1 v1] m IH]; simpl; [reflexivity|].
  destruct (String.eqb_spec k1 k); simpl.
  - subst. apply String.eqb_neq in Hne. rewrite String.eqb_sym, Hne. exact IH.
  - destruct (String.eqb k1 k'); [reflexivity|exact IH].
Qed.


(** Claim C2 (amended).  Starting a stream whose id is already in the
    active registry is not an [AlreadyActive] error: it returns the stored
    stream record as a success and leaves the whole service state
    (worker and active registries, database, alerts) unchanged.  Every
    start leaves the id registered, so a second start always takes that
    path, and starting never creates a second registry entry for an id. *)
Theorem startStream_already_active (streamId : string) (now : Z) (s : service)
    (st : stream_rec) :
  streams_db s !! streamId = Some st ->
  (map_has streamId (activeStreams s) = true ->
   startStream streamId now s = (s, inr st)) /\
  map_has streamId (activeStreams (fst (startStream streamId now s))) = true /\
  (NoDup (map fst (activeStreams s)) ->
   NoDup (map fst (activeStreams (fst (startStream streamId now s))))).
Proof.
  intros Hdb. unfold startStream. rewrite Hdb.
  split; [intros H; now rewrite H|].
  destruct (map_has streamId (activeStreams s)) eqn:E; simpl.
  - split; [exact E|tauto].
  - split; [apply map_set_has|apply map_set_nodup].
Qed.

Lemma startStream_already_active_witness :
  let s0 := mkService [] [] (<["F1" := mkStream "Cam 1" "inactive" 0]> ∅) [] in
  let s1 := fst (startStream "F1" 0 s0) in
  startStream "F1" 5 s1 = (s1, inr (mkStream "Cam 1" "active" 0)).
Proof.
  intros s0 s1.
  apply (startStream_already_active "F1" 5 s1 (mkStream "Cam 1" "active" 0));
    vm_compute; reflexivity.
Defined.

(** Claim C2 as stated fails: the second start of F1 succeeds (it returns
    the stream record, not an error). *)
Lemma startStream_counterexample :
  let s0 := mkService [] [] (<["F1" := mkStream "Cam 1" "inactive" 0]> ∅) [] in
  let s1 := fst (startStream "F1" 0 s0) in
  snd (startStream "F1" 5 s1) = inr (mkStream "Cam 1" "active" 0) /\
  length (activeStreams (fst (startStream "F1" 5 s1))) = 1%nat.
Proof. vm_compute. split; reflexivity. Qed.

(** Claim C10.  [stopStream] succeeds for every id, returning [true]: the
    worker and the registry entry of that id are gone afterwards, the
    persisted record (if any) has status [inactive], a missing record stays
    missing, and the entries of every other id and the alerts are
    untouched. *)
Theorem stopStream_total (streamId : string) (s : service) :
  snd (stopStream streamId s) = true /\
  map_has streamId (workers (fst (stopStream streamId s))) = false /\
  map_has streamId (activeStreams (fst (stopStream streamId s))) = false /\
  streams_db (fst (stopStream streamId s)) !! streamId =
    with_status "inactive" <$> streams_db s !! streamId /\
  (forall k, k <> streamId ->
     streams_db (fst (stopStream streamId s)) !! k = streams_db s !! k /\
     map_get k (workers (fst (stopStream streamId s))) = map_get k (workers s) /\
     map_get k (activeStreams (fst (stopStream streamId s))) = map_get k (activeStreams s)) /\
  alerts_db (fst (stopStream streamId s)) = alerts_db s.
Proof.
  unfold stopStream. simpl.
  split; [reflexivity|]. split; [apply map_delete_has|].
  split; [apply map_delete_has|].
  split; [|split; [|reflexivity]].
  - destruct (streams_db s !! streamId) eqn:E; simpl.
    + apply lookup_insert_eq.
    + exact E.
  - intros k Hk. split; [|split; apply map_delete_get; exact Hk].
    destruct (streams_db s !! streamId); [|reflexivity].
    apply lookup_insert_ne. congruence.
Qed.



Lemma monitor_loop_alerts (now : Z) (entries : js_map active_info) :
  forall (db : gmap string stream_rec) (al : alert_store),
  Forall (fun e => has_record db (fst e) = true) entries ->
  exists fresh,
    snd (monitor_loop now entries db al) = (al ++ fresh)%list /\
    map al_streamId fresh = map fst (List.filter (fun e => is_stale now (snd e)) entries) /\
    Forall unresponsive_alert fresh.
Proof.
  induction entries as [|[id i] rest IH]; intros db al Hdb.
  - exists []. simpl. rewrite app_nil_r. repeat split; constructor.
  - inversion Hdb as [|? ? Hid Hrest]; subst. simpl in Hid. unfold has_record in Hid.
    simpl. destruct (db !! id) as [st|] eqn:E; [|discriminate].
    set (db' := <[id := with_uptime ((now - ai_startTime i) / 1000) st]> db).
    assert (Hrest' : Forall (fun e => has_record db' (fst e) = true) rest).
    { eapply List.Forall_impl; [|exact Hrest]. intros [k v] Hk. simpl in *.
      unfold has_record in *. subst db'. destruct (String.eq_dec k id) as [->|Hne].
      - now rewrite lookup_insert_eq.
      - now rewrite lookup_insert_ne by congruence. }
    destruct (is_stale now i) eqn:Hs; simpl.
    + destruct (AlertFacts.createSystemAlert_shape id TWarning "Stream Unresponsive"
         ("Stream " ++ ai_name i ++ " has not processed frames in 30 seconds")
         Medium now al) as (a & Ha & Hsid & Hty & Hti & Hsev & Hst).
      rewrite Ha.
      destruct (IH db' (al ++ [a])%list Hrest') as (fresh & Hf & Hm & Hsh).
      exists (a :: fresh). rewrite Hf, <- app_assoc. split; [reflexivity|].
      split; [simpl; now rewrite Hsid, Hm|].
      constructor; [repeat split; assumption|exact Hsh].
    + exact (IH db' al Hrest').
Qed.

(** Claim C7.  The health sweep keeps no stale-episode state and, unlike
    [AlertService.checkForAlerts], does not look for an existing active
    alert:
    every sweep at time [now] appends, for each active stream whose last
    frame is more than 30000 ms old (in registry order, and only if it has
    had a frame at all), one new [active] alert of type [warning], titled
    ["Stream Unresponsive"], with severity [medium] (never [critical]), and
    creates no other alert; the registry itself is unchanged, so a later
    sweep with no fresh frame in between raises the alert again.  This
    holds whenever each registered stream still has its database record. *)
Theorem monitor_refires (now : Z) (s : service) :
  Forall (fun e => has_record (streams_db s) (fst e) = true) (activeStreams s) ->
  activeStreams (monitorActiveStreams now s) = activeStreams s /\
  exists fresh,
    alerts_db (monitorActiveStreams now s) = (alerts_db s ++ fresh)%list /\
    map al_streamId fresh =
      map fst (List.filter (fun e => is_stale now (snd e)) (activeStreams s)) /\
    Forall unresponsive_alert fresh.
Proof.
  intros Hdb. unfold monitorActiveStreams.
  destruct (monitor_loop_alerts now (activeStreams s) (streams_db s) (alerts_db s) Hdb)
    as (fresh & Hf & Hm & Hsh).
  destruct (monitor_loop now (activeStreams s) (streams_db s) (alerts_db s))
    as [db' al'] eqn:E. simpl in *.
  split; [reflexivity|]. exists fresh. subst al'. split; [reflexivity|]. now split.
Qed.


Lemma monitor_refires_witness :
  activeStreams (monitorActiveStreams 32000 stale_service) = activeStreams stale_service /\
  exists fresh,
    alerts_db (monitorActiveStreams 32000 stale_service) = (alerts_db stale_service ++ fresh)%list /\
    map al_streamId fresh =
      map fst (List.filter (fun e => is_stale 32000 (snd e)) (activeStreams stale_service)) /\
    Forall unresponsive_alert fresh.
Proof.
  apply (monitor_refires 32000 stale_service). repeat constructor.
Defined.

(** Claim C7 fails on the code: two sweeps, 31 s and 36 s after F1's last
    frame, raise two [active] "Stream Unresponsive" alerts for F1, both of
    severity [medium], none [critical]. *)
Lemma monitor_counterexample :
  let s2 := monitorActiveStreams 37000 (monitorActiveStreams 32000 stale_service) in
  count_active "F1" "Stream Unresponsive" (alerts_db s2) = 2%nat /\
  map al_severity (alerts_db s2) = [Medium; Medium].
Proof. vm_compute. split; reflexivity. Qed.

End StreamServiceFacts.

(* ------------------------------------------------------------------ *)
(** ** AIService: registry, batches, queue items, full drain *)

Module AIServiceOpsFacts.

Import AIService AlertModel AIServiceOps.

Lemma loadModels_lookup (k : string) :
  loadModels ∅ !! k =
  if existsb (String.eqb k) model_ids then Some all_source_types else None.
Proof.
  unfold model_ids. cbn [existsb].
  destruct (String.eqb_spec k "object-detection") as [->|H1]; [reflexivity|].
  destruct (String.eqb_spec k "defect-analysis") as [->|H2]; [reflexivity|].
  destruct (String.eqb_spec k "face-recognition") as [->|H3]; [reflexivity|].
  destruct (String.eqb_spec k "motion-detection") as [->|H4]; [reflexivity|].
  unfold loadModels, model_registry in *.
  rewrite !lookup_insert_ne by congruence. apply lookup_empty.
Qed.

Lemma processStream_queue (models : model_registry) (db : gmap string stream_doc)
    (q : list queue_item) (sid mt : string) (t : Z) :
  processStream models db q sid mt t =
  match processStream models db [] sid mt t with
  | inr (_, item) => inr ((q ++ [item])%list, item)
  | inl e => inl e
  end.
Proof.
  unfold processStream.
  destruct (models !! mt); [|reflexivity].
  destruct (db !! sid); [|reflexivity].
  destruct (existsb _ _); reflexivity.
Qed.

(** [loadModels] registers the same [supportedTypes] for all four models:
    once it has run on the empty registry, a submission whose stream exists
    with a source type allowed by the [Stream] schema is accepted for each
    of the four model ids, and rejected with [ModelNotFound] for any other
    id; [UnsupportedType] never occurs. *)
Theorem loadModels_accepts_schema_types (db : gmap string stream_doc)
    (q : list queue_item) (sid mt : string) (now : Z) (st : stream_doc) :
  db !! sid = Some st -> In (sd_source_type st) schema_source_types ->
  (In mt model_ids ->
   exists item, processStream (loadModels ∅) db q sid mt now = inr ((q ++ [item])%list, item)) /\
  (~ In mt model_ids -> processStream (loadModels ∅) db q sid mt now = inl ModelNotFound).
Proof.
  intros Hdb Hty. unfold processStream. rewrite loadModels_lookup.
  split.
  - intros Hin.
    assert (E : existsb (String.eqb mt) model_ids = true).
    { apply existsb_exists. exists mt. split; [exact Hin|apply String.eqb_refl]. }
    rewrite E, Hdb.
    assert (E2 : existsb (String.eqb (sd_source_type st)) all_source_types = true).
    { apply existsb_exists. exists (sd_source_type st). split; [exact Hty|apply String.eqb_refl]. }
    rewrite E2. eexists. reflexivity.
  - intros Hn.
    destruct (existsb (String.eqb mt) model_ids) eqn:E; [|reflexivity].
    apply existsb_exists in E. destruct E as (x & Hx & Heq).
    apply String.eqb_eq in Heq. subst. contradiction.
Qed.

Lemma loadModels_accepts_schema_types_witness :
  let db := <["F1" := mkStreamDoc "Cam 1" "camera" None]> (∅ : gmap string stream_doc) in
  (exists item, processStream (loadModels ∅) db [] "F1" "face-recognition" 3
                = inr (([] ++ [item])%list, item)) /\
  processStream (loadModels ∅) db [] "F1" "pose-estimation" 3 = inl ModelNotFound.
Proof.
  intros db.
  destruct (loadModels_accepts_schema_types db [] "F1" "face-recognition" 3
              (mkStreamDoc "Cam 1" "camera" None) eq_refl) as [H1 _];
    [simpl; tauto|].
  destruct (loadModels_accepts_schema_types db [] "F1" "pose-estimation" 3
              (mkStreamDoc "Cam 1" "camera" None) eq_refl) as [_ H2];
    [simpl; tauto|].
  split; [apply H1; simpl; tauto|apply H2; simpl; intuition discriminate].
Defined.

Lemma batch_shape (models : model_registry) (db : gmap string stream_doc)
    (reqs : list (string * Z)) (mt : string) :
  forall q,
  let (rs, q') := batchProcessStreams models db q reqs mt in
  map batch_streamId rs = map fst reqs /\
  q' = (q ++ batch_items rs)%list /\
  Forall2 (fun r req =>
             match r with
             | BatchOk _ item => processStream models db [] (fst req) mt (snd req) = inr ([item], item)
             | BatchErr _ e => processStream models db [] (fst req) mt (snd req) = inl e
             end) rs reqs.
Proof.
  induction reqs as [|[sid t] rest IH]; intros q; simpl.
  - split; [reflexivity|]. split; [symmetry; apply app_nil_r|constructor].
  - rewrite processStream_queue.
    destruct (processStream models db [] sid mt t) as [e|[q0 item]] eqn:E.
    + specialize (IH q). destruct (batchProcessStreams models db q rest mt) as [rs q''].
      destruct IH as (H1 & H2 & H3). simpl.
      split; [now rewrite H1|]. split; [exact H2|]. constructor; [exact E|exact H3].
    + specialize (IH (q ++ [item])%list).
      destruct (batchProcessStreams models db (q ++ [item]) rest mt) as [rs q''].
      destruct IH as (H1 & H2 & H3). simpl.
      split; [now rewrite H1|]. split; [now rewrite H2, <- app_assoc|].
      constructor; [|exact H3]. simpl.
      unfold processStream in E |- *.
      destruct (models !! mt); [|discriminate].
      destruct (db !! sid); [|discriminate].
      destruct (existsb _ _); [|discriminate]. injection E as <- <-. reflexivity.
Qed.

(** [batchProcessStreams] returns one result per requested stream id, in
    request order; a failing id does not stop the batch; each result is
    exactly what a single [processStream] call for that id gives; and the
    queue ends up as the old queue followed by the items of the successful
    ids, in order. *)
Theorem batchProcessStreams_results (models : model_registry)
    (db : gmap string stream_doc) (q : list queue_item) (reqs : list (string * Z))
    (mt : string) :
  let (rs, q') := batchProcessStreams models db q reqs mt in
  map batch_streamId rs = map fst reqs /\
  q' = (q ++ batch_items rs)%list /\
  Forall2 (fun r req =>
             match r with
             | BatchOk _ item => processStream models db [] (fst req) mt (snd req) = inr ([item], item)
             | BatchErr _ e => processStream models db [] (fst req) mt (snd req) = inl e
             end) rs reqs.
Proof. apply batch_shape. Qed.

(** After [cleanup] the model registry is empty and the queue is empty:
    every later submission, single or in a batch, is rejected with
    [ModelNotFound] and nothing is queued, until [loadModels] runs
    again. *)
Theorem cleanup_rejects_all (s : ai_service) (db : gmap string stream_doc)
    (reqs : list (string * Z)) (mt : string) :
  processingQueue (ai_sched (cleanup s)) = [] /\
  (forall q sid now, processStream (ai_models (cleanup s)) db q sid mt now = inl ModelNotFound) /\
  batchProcessStreams (ai_models (cleanup s)) db (processingQueue (ai_sched (cleanup s))) reqs mt =
    (map (fun req => BatchErr (fst req) ModelNotFound) reqs, []).
Proof.
  split; [reflexivity|]. split.
  - intros q sid now. reflexivity.
  - simpl. induction reqs as [|[sid t] rest IH]; simpl; [reflexivity|].
    rewrite IH. reflexivity.
Qed.

(** The confidence threshold of [processQueueItem] is
    [item.parameters.confidence], i.e. the caller's value over
    [model.parameters.confidence], which is the parameter descriptor object
    (or [undefined] for models without that parameter).  When the caller
    gives no numeric [confidence], every comparison [d.confidence > ...] is
    false and a completed job never creates a detection alert, whatever
    its detections; with a numeric value [c] the alert step is exactly the
    one of [on_outcome] with threshold [c] (a rejected alert is caught and
    stores nothing).  The [catch] block passes a string as [data.error],
    so its alert is rejected too: a failed job stores no alert, and for a
    model type outside the [Alert] [category] enum no job ever stores one. *)
Theorem processQueueItem_threshold (item : queue_item) (now : Z) (s : alert_store) :
  (forall dets, processQueueItem item (merged_confidence (qi_modelType item) None)
                  (Completed dets) now s = s) /\
  (forall c dets, processQueueItem item (merged_confidence (qi_modelType item) (Some c))
                    (Completed dets) now s =
                  match on_outcome (qi_streamId item) (qi_modelType item) c dets now s with
                  | Some s' => s'
                  | None => s
                  end) /\
  (forall conf m, processQueueItem item conf (Failed m) now s = s) /\
  (category_ok (qi_modelType item) = false ->
   forall conf out, processQueueItem item conf out now s = s).
Proof.
  split; [|split; [|split]].
  - intros dets. unfold processQueueItem.
    destruct dets as [|d ds]; [reflexivity|].
    assert (F : forall v l, v = PVObj \/ v = PVUndef ->
                List.filter (fun d => js_gt (d_confidence d) v) l = []).
    { intros v l Hv. induction l as [|x l IH]; [reflexivity|]. simpl.
      destruct Hv as [-> | ->]; exact IH. }
    rewrite F; [reflexivity|].
    unfold merged_confidence. destruct (has_confidence_param _); auto.
  - intros c dets. unfold processQueueItem, on_outcome, merged_confidence, js_gt.
    destruct dets as [|d ds]; [reflexivity|].
    destruct (List.filter (fun d => negb (Qle_bool (d_confidence d) c)) (d :: ds));
      [reflexivity|].
    destruct (createDetectionAlert _ _ _ _ _); reflexivity.
  - intros conf m. reflexivity.
  - intros Hc conf [dets|m]; [|reflexivity]. unfold processQueueItem.
    destruct dets as [|d ds]; [reflexivity|].
    destruct (List.filter _ (d :: ds)); [reflexivity|].
    rewrite AlertFacts.createDetectionAlert_rejected by exact Hc. reflexivity.
Qed.

Lemma processQueueItem_threshold_witness :
  let item := mkItem ("F1", "face-recognition", 0%Z) "F1" "face-recognition" 0 "high" in
  processQueueItem item (PVNum (1 # 2)) (Completed [mkDetection "person" (9 # 10) None]) 5 [] = [].
Proof.
  intros item.
  apply (proj2 (proj2 (proj2 (processQueueItem_threshold item 5 [])))). reflexivity.
Defined.

Lemma drain_tick_nonempty (q : list queue_item) :
  q <> [] ->
  exists item rest, js_sort q = item :: rest /\
    drain_tick (mkSched q false) = (mkSched rest true, Some item).
Proof.
  intros Hne. unfold drain_tick. simpl.
  assert (L : Nat.eqb (length q) 0 = false) by (destruct q; [congruence|reflexivity]).
  rewrite L. cbv iota.
  destruct (js_sort q) as [|item rest] eqn:E.
  - pose proof (AIServiceFacts.js_sort_perm q) as P. rewrite E in P.
    apply Permutation_nil in P. congruence.
  - now exists item, rest.
Qed.

(** With no submission in between, ticks that each wait for the previous
    job to settle drain a queue of [n] jobs (with numeric priorities) in
    exactly [n] ticks: every queued job is handed to [processQueueItem]
    exactly once, in the order of [key_le] (higher rank first, then older
    first), and the scheduler ends empty and idle. *)
Theorem drain_run_executes_all (q : list queue_item) :
  Forall numeric q ->
  let (ex, s') := drain_run (length q) (mkSched q false) in
  Permutation ex q /\ StronglySorted key_le ex /\ s' = mkSched [] false.
Proof.
  remember (length q) as n eqn:En. revert q En.
  induction n as [|n IH]; intros q En Hnum.
  - destruct q; [|discriminate]. simpl. split; [constructor|]. split; constructor.
  - assert (Hne : q <> []) by (intros ->; discriminate).
    destruct (drain_tick_nonempty q Hne) as (item & rest & Hs & Ht).
    simpl. rewrite Ht. unfold drain_finish. simpl.
    assert (P : Permutation q (item :: rest)) by (rewrite <- Hs; symmetry; apply AIServiceFacts.js_sort_perm).
    assert (Hmin : Forall (key_le item) q) by (eapply AIServiceFacts.js_sort_head_min; eassumption).
    assert (Hr : Forall numeric rest).
    { rewrite List.Forall_forall in Hnum |- *. intros x Hx. apply Hnum.
      eapply Permutation_in; [symmetry; exact P|now right]. }
    assert (Lr : n = length rest).
    { apply Permutation_length in P. simpl in P. lia. }
    specialize (IH rest Lr Hr).
    destruct (drain_run n (mkSched rest false)) as [ex s2].
    destruct IH as (Pe & Se & ->).
    split; [|split; [|reflexivity]].
    + rewrite P. now apply perm_skip.
    + constructor; [exact Se|].
      rewrite List.Forall_forall in Hmin |- *. intros x Hx. apply Hmin.
      eapply Permutation_in; [symmetry; exact P|]. right.
      eapply Permutation_in; [exact Pe|exact Hx].
Qed.

Lemma drain_run_executes_all_witness :
  let jl := mkItem ("F1", "object-detection", 1%Z) "F1" "object-detection" 1 "low" in
  let jc := mkItem ("F2", "object-detection", 2%Z) "F2" "object-detection" 2 "critical" in
  let jm := mkItem ("F3", "object-detection", 3%Z) "F3" "object-detection" 3 "medium" in
  let (ex, s') := drain_run (length [jl; jc; jm]) (mkSched [jl; jc; jm] false) in
  Permutation ex [jl; jc; jm] /\ StronglySorted key_le ex /\ s' = mkSched [] false.
Proof.
  intros jl jc jm. apply (drain_run_executes_all [jl; jc; jm]). repeat constructor.
Defined.

End AIServiceOpsFacts.

(* ------------------------------------------------------------------ *)
(** ** Alerts: the expiry invariant, the update route, the cleanup sweep *)

Module AlertOpsFacts.

Import AlertModel AlertOps.

Lemma pre_save_valid (now : Z) (a : alert) : valid_expiry (pre_save now a) = true.
Proof. AlertFacts.destruct_alert a; reflexivity. Qed.

(** The expiry of an alert changed through [PUT /api/alerts/:id] is
    recomputed by the pre-save hook from the new severity: a (now)
    critical alert loses its expiry; a non-critical alert keeps the expiry
    it had, so an edit never extends it, and one without expiry (e.g. an
    alert just demoted from critical) gets [now + 24 h]; the status is not
    touched. *)
Theorem updateAlert_expiry (now : Z) (p : alert_patch) (a : alert) :
  al_expiresAt (updateAlert now p a) =
    (if severity_eqb (default (al_severity a) (pt_severity p)) Critical then None
     else match al_expiresAt a with
          | Some e => Some e
          | None => Some (now + day_ms)%Z
          end) /\
  al_severity (updateAlert now p a) = default (al_severity a) (pt_severity p) /\
  al_status (updateAlert now p a) = al_status a.
Proof.
  destruct a as [? ? ? ? ? ? sev ? ? ? ? ? ? ? exp].
  destruct p as [pt pm [sev'|]]; unfold updateAlert, pre_save; simpl;
    [destruct sev'|destruct sev]; destruct exp; simpl; repeat split.
Qed.

(** Every save goes through the pre-save hook, so every alert written by
    the model (creation, [acknowledge], [resolve], [dismiss],
    [addDetection], the update route) has an expiry exactly when it is not
    critical.  On an alert with that property, [acknowledge], [resolve],
    [dismiss] and [addDetection] leave the expiry unchanged: acting on an
    alert never postpones its expiry. *)
Theorem saves_keep_expiry (now : Z) (by_ : string) (d : detection) (a : alert) :
  (valid_expiry (acknowledge now by_ a) = true /\ valid_expiry (resolve now by_ a) = true /\
   valid_expiry (dismiss now a) = true /\ valid_expiry (addDetection now d a) = true /\
   (forall p, valid_expiry (updateAlert now p a) = true)) /\
  (valid_expiry a = true ->
   al_expiresAt (acknowledge now by_ a) = al_expiresAt a /\
   al_expiresAt (resolve now by_ a) = al_expiresAt a /\
   al_expiresAt (dismiss now a) = al_expiresAt a /\
   al_expiresAt (addDetection now d a) = al_expiresAt a).
Proof.
  split.
  - unfold acknowledge, resolve, dismiss, addDetection, updateAlert.
    rewrite !pre_save_valid. repeat split. intros p. apply pre_save_valid.
  - destruct a as [? ? ? ? ? ? sev ? ? ? ? ? ? ? exp].
    unfold valid_expiry, acknowledge, resolve, dismiss, addDetection, pre_save; simpl.
    destruct exp, sev; simpl; intros H; try discriminate; repeat split.
Qed.

Lemma saves_keep_expiry_witness :
  let a := mkAlert 0 "F1" TDetection "object-detection" "2 objects detected" "m"
             Medium Active [] 0 None None None None (Some day_ms) in
  al_expiresAt (acknowledge 500 "op" a) = al_expiresAt a /\
  al_expiresAt (resolve 500 "op" a) = al_expiresAt a /\
  al_expiresAt (dismiss 500 a) = al_expiresAt a /\
  al_expiresAt (addDetection 500 (mkDetection "car" (9 # 10) None) a) = al_expiresAt a.
Proof.
  intros a. apply (proj2 (saves_keep_expiry 500 "op" (mkDetection "car" (9 # 10) None) a)).
  reflexivity.
Defined.

Lemma clean_one_idem (now : Z) (a : alert) :
  expired_match now (if expired_match now a then set_status Dismissed a else a) =
  false \/ expired_match now a = false.
Proof.
  destruct (expired_match now a) eqn:E; [left|right; reflexivity].
  unfold expired_match in *. destruct a; simpl in *.
  destruct al_expiresAt0; [|discriminate]. rewrite andb_false_r. reflexivity.
Qed.

(** [cleanExpiredAlerts] is idempotent, keeps every document (same ids, in
    the same order), and does not change what [getActiveAlerts] reports at
    the same instant: the alerts it dismisses are exactly ones that the
    active view already hides. *)
Theorem cleanExpiredAlerts_view (now : Z) (s : alert_store) :
  cleanExpiredAlerts now (cleanExpiredAlerts now s) = cleanExpiredAlerts now s /\
  map al_id (cleanExpiredAlerts now s) = map al_id s /\
  getActiveAlerts now (cleanExpiredAlerts now s) = getActiveAlerts now s.
Proof.
  unfold cleanExpiredAlerts, getActiveAlerts.
  induction s as [|a s (IH1 & IH2 & IH3)]; [repeat split|].
  simpl. rewrite IH1, IH2. split; [|split].
  - f_equal. destruct (expired_match now a) eqn:E; [|now rewrite E].
    assert (E2 : expired_match now (set_status Dismissed a) = false).
    { unfold expired_match. destruct a; simpl in *.
      destruct al_expiresAt0; [|reflexivity]. apply andb_false_r. }
    now rewrite E2.
  - f_equal. destruct (expired_match now a); reflexivity.
  - destruct (expired_match now a) eqn:E.
    + assert (Hh : (status_eqb (al_status a) Active &&
                    match al_expiresAt a with Some e => Z.ltb now e | None => true end)%bool
                   = false).
      { unfold expired_match in E. destruct (al_expiresAt a) as [e|]; [|discriminate].
        apply andb_true_iff in E. destruct E as [E _]. apply Z.ltb_lt in E.
        assert (Z.ltb now e = false) by (apply Z.ltb_ge; lia).
        rewrite H. apply andb_false_r. }
      simpl. rewrite Hh. rewrite IH3. reflexivity.
    + simpl. rewrite IH3. reflexivity.
Qed.

(** The cleanup sweep never touches a critical alert that satisfies the
    expiry invariant (it has no expiry), nor a resolved or dismissed alert;
    so on a collection written through the model, [getCriticalAlerts]
    reports the same alerts before and after a cleanup. *)
Theorem cleanExpiredAlerts_spares (now : Z) (s : alert_store) :
  (forall i a, s !! i = Some a ->
     (al_severity a = Critical /\ valid_expiry a = true) \/
     al_status a = Resolved \/ al_status a = Dismissed ->
     cleanExpiredAlerts now s !! i = Some a) /\
  (Forall (fun a => valid_expiry a = true) s ->
   getCriticalAlerts (cleanExpiredAlerts now s) = getCriticalAlerts s).
Proof.
  assert (Keep : forall a, (al_severity a = Critical /\ valid_expiry a = true) \/
                  al_status a = Resolved \/ al_status a = Dismissed ->
                  expired_match now a = false).
  { intros a H. unfold expired_match, valid_expiry in *.
    destruct (al_expiresAt a) as [e|]; [|reflexivity].
    destruct H as [[Hs Hv] | [Hs | Hs]].
    - rewrite Hs in Hv. discriminate.
    - rewrite Hs. apply andb_false_r.
    - rewrite Hs. apply andb_false_r. }
  split.
  - intros i a Hi H. unfold cleanExpiredAlerts.
    rewrite AlertFacts.lookup_map, Hi. simpl. now rewrite (Keep a H).
  - intros Hv. unfold cleanExpiredAlerts, getCriticalAlerts.
    induction s as [|a s IH]; [reflexivity|].
    inversion Hv as [|? ? Ha Hs]; subst. simpl. rewrite (IH Hs).
    destruct (severity_eqb (al_severity a) Critical) eqn:Ec.
    + assert (E : expired_match now a = false).
      { apply Keep. left. split; [|exact Ha]. revert Ec; destruct (al_severity a); easy. }
      now rewrite E, Ec.
    + destruct (expired_match now a); simpl; rewrite Ec; reflexivity.
Qed.

Lemma cleanExpiredAlerts_spares_witness :
  let c := mkAlert 0 "F1" TCritical "system" "Fire" "m" Critical Active [] 0
             None None None None None in
  let r := mkAlert 1 "F1" TWarning "system" "Late" "m" Medium Resolved [] 0
             None None (Some 3%Z) (Some "op") (Some 10%Z) in
  cleanExpiredAlerts day_ms [c; r] !! 1%nat = Some r /\
  getCriticalAlerts (cleanExpiredAlerts day_ms [c; r]) = getCriticalAlerts [c; r].
Proof.
  intros c r. split.
  - apply (proj1 (cleanExpiredAlerts_spares day_ms [c; r]) 1%nat r); [reflexivity|].
    right. left. reflexivity.
  - apply (proj2 (cleanExpiredAlerts_spares day_ms [c; r])). repeat constructor.
Defined.

(** A detection alert is never critical: its severity is [high] when more
    than five detections are reported and [medium] otherwise, each
    detection is stamped with the creation time [t], and it expires at
    [t + 24 h]; any cleanup after that instant dismisses it while it is
    still [active].  This is for a model type in the [category] enum; for
    any other the save is rejected and nothing is stored. *)
Theorem createDetectionAlert_lifecycle (sid mt : string) (dets : list detection)
    (t : Z) (s : alert_store) :
  (category_ok mt = false -> createDetectionAlert sid dets mt t s = None) /\
  (category_ok mt = true ->
  exists a,
    createDetectionAlert sid dets mt t s = Some (s ++ [a])%list /\
    al_severity a = (if Nat.ltb 5 (length dets) then High else Medium) /\
    al_expiresAt a = Some (t + day_ms)%Z /\
    Forall (fun d => d_timestamp d = Some t) (al_detections a) /\
    (forall u, (t + day_ms < u)%Z ->
       cleanExpiredAlerts u (s ++ [a])%list !! length s = Some (set_status Dismissed a))).
Proof.
  split; [apply AlertFacts.createDetectionAlert_rejected|]. intros Hc.
  unfold createDetectionAlert. rewrite Hc.
  eexists. split; [reflexivity|].
  assert (Sev : al_severity (new_alert (length s) sid TDetection mt
                 (nat_to_string (length dets) ++ " objects detected")
                 ("AI model detected " ++ nat_to_string (length dets) ++ " objects in stream")
                 (if Nat.ltb 5 (length dets) then High else Medium)
                 (map (fun d => mkDetection (d_label d) (d_confidence d) (Some t)) dets) t)
               = if Nat.ltb 5 (length dets) then High else Medium).
  { unfold new_alert. now rewrite (proj1 (proj2 (proj2 (AlertFacts.pre_save_fields _ _)))). }
  assert (Exp : al_expiresAt (new_alert (length s) sid TDetection mt
                 (nat_to_string (length dets) ++ " objects detected")
                 ("AI model detected " ++ nat_to_string (length dets) ++ " objects in stream")
                 (if Nat.ltb 5 (length dets) then High else Medium)
                 (map (fun d => mkDetection (d_label d) (d_confidence d) (Some t)) dets) t)
               = Some (t + day_ms)%Z).
  { unfold new_alert, pre_save. simpl. destruct (Nat.ltb 5 (length dets)); reflexivity. }
  split; [exact Sev|]. split; [exact Exp|]. split.
  - unfold new_alert, pre_save. simpl.
    destruct (Nat.ltb 5 (length dets)); simpl;
      apply List.Forall_forall; intros d Hd; apply in_map_iff in Hd;
      destruct Hd as (x & <- & _); reflexivity.
  - intros u Hu. unfold cleanExpiredAlerts. rewrite AlertFacts.lookup_map.
    rewrite lookup_app_r by lia. rewrite Nat.sub_diag. simpl.
    unfold expired_match. rewrite Exp.
    assert (E : Z.ltb (t + day_ms) u = true) by (apply Z.ltb_lt; exact Hu).
    rewrite E. unfold new_alert. rewrite AlertFacts.pre_save_status. reflexivity.
Qed.

Lemma createDetectionAlert_lifecycle_witness :
  let dets := [mkDetection "person" (9 # 10) None; mkDetection "car" (95 # 100) None] in
  (exists a,
     createDetectionAlert "F1" dets "object-detection" 0 [] = Some ([] ++ [a])%list /\
     al_severity a = Medium /\
     cleanExpiredAlerts (day_ms + 1) ([] ++ [a])%list !! 0%nat = Some (set_status Dismissed a)) /\
  createDetectionAlert "F1" dets "pose-estimation" 0 [] = None.
Proof.
  intros dets. split.
  - destruct (proj2 (createDetectionAlert_lifecycle "F1" "object-detection" dets 0 [])
                (eq_refl true)) as (a & H1 & H2 & _ & _ & H5).
    exists a. split; [exact H1|]. split; [exact H2|].
    apply (H5 (day_ms + 1)%Z). vm_compute. reflexivity.
  - apply (proj1 (createDetectionAlert_lifecycle "F1" "pose-estimation" dets 0 [])).
    reflexivity.
Defined.

End AlertOpsFacts.

(* ------------------------------------------------------------------ *)
(** ** AlertService.checkForAlerts and the Stream statistics *)

Module AlertServiceOpsFacts.

Import AlertModel AlertServiceOps.

Lemma count_typed_app (k : string) (ty : alert_type) (ti : string) (s1 s2 : alert_store) :
  count_typed k ty ti (s1 ++ s2)%list = (count_typed k ty ti s1 + count_typed k ty ti s2)%nat.
Proof. unfold count_typed. now rewrite List.filter_app, length_app. Qed.

Lemma exists_active_count (k : string) (ty : alert_type) (ti : string) (s : alert_store) :
  exists_active k ty ti s = negb (Nat.eqb (count_typed k ty ti s) 0).
Proof.
  unfold exists_active, count_typed. induction s as [|a s IH]; [reflexivity|].
  simpl. destruct (_ && _ && _ && _); simpl; [reflexivity|exact IH].
Qed.

Lemma alert_type_eqb_refl (t : alert_type) : alert_type_eqb t t = true.
Proof. destruct t; reflexivity. Qed.

Lemma dedup_step (k sid : string) (ty : alert_type) (ti msg : string) (sev : severity)
    (now : Z) (al : alert_store) (c : bool) (al' : alert_store) :
  al' = (if c then if exists_active sid ty ti al then al
                   else createSystemAlert sid ty ti msg sev now al
         else al) ->
  (exists fresh, al' = (al ++ fresh)%list) /\
  count_typed k ty ti al' =
    (if String.eqb sid k && c && Nat.eqb (count_typed k ty ti al) 0
     then 1 else count_typed k ty ti al)%nat /\
  (forall ty' ti', alert_type_eqb ty ty' && String.eqb ti ti' = false ->
     count_typed k ty' ti' al' = count_typed k ty' ti' al).
Proof.
  intros ->.
  destruct c; [|rewrite andb_false_r; simpl;
                split; [exists []; now rewrite app_nil_r|split; reflexivity]].
  destruct (exists_active sid ty ti al) eqn:Ex.
  - split; [exists []; now rewrite app_nil_r|]. split; [|reflexivity].
    destruct (String.eqb_spec sid k) as [<-|]; simpl; [|reflexivity].
    rewrite exists_active_count in Ex.
    destruct (Nat.eqb (count_typed sid ty ti al) 0); [discriminate|reflexivity].
  - destruct (AlertFacts.createSystemAlert_shape sid ty ti msg sev now al)
      as (a & Ha & Hsid & Hty & Hti & _ & Hst).
    rewrite Ha. split; [now exists [a]|].
    assert (One : forall ty' ti', count_typed k ty' ti' [a] =
               (if String.eqb sid k && alert_type_eqb ty ty' && String.eqb ti ti' then 1 else 0)%nat).
    { intros ty' ti'. unfold count_typed. simpl.
      rewrite Hsid, Hty, Hti, Hst. simpl. rewrite andb_true_r.
      destruct (_ && _ && _); reflexivity. }
    split.
    + rewrite count_typed_app, One, alert_type_eqb_refl, String.eqb_refl.
      destruct (String.eqb_spec sid k) as [<-|]; simpl; [|lia].
      rewrite exists_active_count in Ex.
      destruct (Nat.eqb_spec (count_typed sid ty ti al) 0) as [E|]; [|discriminate].
      rewrite E. reflexivity.
    + intros ty' ti' Hne. rewrite count_typed_app, One.
      rewrite <- andb_assoc, Hne, andb_false_r. lia.
Qed.

Lemma check_unresponsive_count (now : Z) (k : string) (streams : list stream_stats) :
  forall al,
  (exists fresh, check_unresponsive now streams al = (al ++ fresh)%list) /\
  count_typed k TWarning "Stream Unresponsive" (check_unresponsive now streams al) =
    (if existsb (fun st => String.eqb (st_id st) k && unresponsive_due now st) streams &&
        Nat.eqb (count_typed k TWarning "Stream Unresponsive" al) 0
     then 1 else count_typed k TWarning "Stream Unresponsive" al)%nat /\
  count_typed k TError "High Error Rate" (check_unresponsive now streams al) =
    count_typed k TError "High Error Rate" al.
Proof.
  induction streams as [|st rest IH]; intros al.
  - simpl. split; [exists []; now rewrite app_nil_r|]. split; reflexivity.
  - cbn [check_unresponsive existsb].
    assert (Step : exists al', 
      (match st_lastProcessed st with
       | Some lp =>
         if Z.ltb (5 * 60 * 1000) (now - lp) then
           if exists_active (st_id st) TWarning "Stream Unresponsive" al then al
           else createSystemAlert (st_id st) TWarning "Stream Unresponsive"
                  ("Stream " ++ st_name st ++ " has not processed frames for " ++
                   nat_to_string (Z.to_nat ((now - lp) / 1000)) ++ " seconds")
                  Medium now al
         else al
       | None => al
       end) = al' /\
      (exists fresh, al' = (al ++ fresh)%list) /\
      count_typed k TWarning "Stream Unresponsive" al' =
        (if String.eqb (st_id st) k && unresponsive_due now st &&
            Nat.eqb (count_typed k TWarning "Stream Unresponsive" al) 0
         then 1 else count_typed k TWarning "Stream Unresponsive" al)%nat /\
      count_typed k TError "High Error Rate" al' = count_typed k TError "High Error Rate" al).
    { unfold unresponsive_due. destruct (st_lastProcessed st) as [lp|].
      - eexists. split; [reflexivity|].
        destruct (dedup_step k (st_id st) TWarning "Stream Unresponsive"
                    ("Stream " ++ st_name st ++ " has not processed frames for " ++
                     nat_to_string (Z.to_nat ((now - lp) / 1000)) ++ " seconds")
                    Medium now al (Z.ltb (5 * 60 * 1000) (now - lp)) _ eq_refl)
          as (F & C & O).
        split; [exact F|]. split; [exact C|]. apply O. reflexivity.
      - exists al. split; [reflexivity|]. split; [exists []; now rewrite app_nil_r|].
        rewrite andb_false_r. split; reflexivity. }
    destruct Step as (al' & -> & (f1 & Hf1) & C1 & O1).
    destruct (IH al') as ((f2 & Hf2) & C2 & O2).
    split; [exists (f1 ++ f2)%list; now rewrite Hf2, Hf1, app_assoc|].
    split; [|now rewrite O2, O1].
    rewrite C2, C1.
    destruct (String.eqb (st_id st) k && unresponsive_due now st);
      destruct (Nat.eqb (count_typed k TWarning "Stream Unresponsive" al) 0) eqn:Ec;
      destruct (existsb _ rest); cbn [andb orb]; rewrite ?Ec; reflexivity.
Qed.

Lemma check_error_rate_count (now : Z) (k : string) (streams : list stream_stats) :
  forall al,
  (exists fresh, check_error_rate now streams al = (al ++ fresh)%list) /\
  count_typed k TError "High Error Rate" (check_error_rate now streams al) =
    (if existsb (fun st => String.eqb (st_id st) k && high_error_rate st) streams &&
        Nat.eqb (count_typed k TError "High Error Rate" al) 0
     then 1 else count_typed k TError "High Error Rate" al)%nat /\
  count_typed k TWarning "Stream Unresponsive" (check_error_rate now streams al) =
    count_typed k TWarning "Stream Unresponsive" al.
Proof.
  induction streams as [|st rest IH]; intros al.
  - simpl. split; [exists []; now rewrite app_nil_r|]. split; reflexivity.
  - cbn [check_error_rate existsb].
    assert (Step : exists al', 
      (if Z.ltb 0 (st_totalFrames st) then
         if negb (Qle_bool (error_rate st) (1 # 10)) then
           if exists_active (st_id st) TError "High Error Rate" al then al
           else createSystemAlert (st_id st) TError "High Error Rate"
                  ("Stream " ++ st_name st ++ " has a high error rate: " ++
                   to_fixed1 (error_rate st * 100) ++ "%")
                  High now al
         else al
       else al) = al' /\
      (exists fresh, al' = (al ++ fresh)%list) /\
      count_typed k TError "High Error Rate" al' =
        (if String.eqb (st_id st) k && high_error_rate st &&
            Nat.eqb (count_typed k TError "High Error Rate" al) 0
         then 1 else count_typed k TError "High Error Rate" al)%nat /\
      count_typed k TWarning "Stream Unresponsive" al' =
        count_typed k TWarning "Stream Unresponsive" al).
    { unfold high_error_rate. destruct (Z.ltb 0 (st_totalFrames st)); simpl.
      - eexists. split; [reflexivity|].
        destruct (dedup_step k (st_id st) TError "High Error Rate"
                    ("Stream " ++ st_name st ++ " has a high error rate: " ++
                     to_fixed1 (error_rate st * 100) ++ "%")
                    High now al (negb (Qle_bool (error_rate st) (1 # 10))) _ eq_refl)
          as (F & C & O).
        split; [exact F|]. split; [exact C|]. apply O. reflexivity.
      - exists al. split; [reflexivity|]. split; [exists []; now rewrite app_nil_r|].
        rewrite andb_false_r. split; reflexivity. }
    destruct Step as (al' & -> & (f1 & Hf1) & C1 & O1).
    destruct (IH al') as ((f2 & Hf2) & C2 & O2).
    split; [exists (f1 ++ f2)%list; now rewrite Hf2, Hf1, app_assoc|].
    split; [|now rewrite O2, O1].
    rewrite C2, C1.
    destruct (String.eqb (st_id st) k && high_error_rate st);
      destruct (Nat.eqb (count_typed k TError "High Error Rate" al) 0) eqn:Ec;
      destruct (existsb _ rest); cbn [andb orb]; rewrite ?Ec; reflexivity.
Qed.

Lemma existsb_filter {A} (f g : A -> bool) (l : list A) :
  existsb f (List.filter g l) = existsb (fun x => g x && f x) l.
Proof.
  induction l as [|x l IH]; [reflexivity|]. simpl.
  destruct (g x); simpl; [now rewrite IH|exact IH].
Qed.

(** [checkForAlerts] only appends alerts and never duplicates one: for
    every stream id [k], the number of [active] ["Stream Unresponsive"]
    warnings of [k] becomes 1 when there was none and some active stream
    [k] has a last-processed time more than 5 minutes old, and stays as it
    was otherwise; likewise the ["High Error Rate"] errors, for a stream
    with frames whose error rate is above 10%.  In particular a stream
    never gets a second such alert while one is active. *)
Theorem checkForAlerts_dedup (now : Z) (db : list stream_stats) (al : alert_store)
    (k : string) :
  (exists fresh, checkForAlerts now db al = (al ++ fresh)%list) /\
  count_typed k TWarning "Stream Unresponsive" (checkForAlerts now db al) =
    (if existsb (fun st => String.eqb (st_status st) "active" &&
                           (String.eqb (st_id st) k && unresponsive_due now st)) db &&
        Nat.eqb (count_typed k TWarning "Stream Unresponsive" al) 0
     then 1 else count_typed k TWarning "Stream Unresponsive" al)%nat /\
  count_typed k TError "High Error Rate" (checkForAlerts now db al) =
    (if existsb (fun st => String.eqb (st_status st) "active" &&
                           (String.eqb (st_id st) k && high_error_rate st)) db &&
        Nat.eqb (count_typed k TError "High Error Rate" al) 0
     then 1 else count_typed k TError "High Error Rate" al)%nat.
Proof.
  unfold checkForAlerts.
  set (streams := List.filter (fun st => String.eqb (st_status st) "active") db).
  destruct (check_unresponsive_count now k streams al) as ((f1 & Hf1) & C1 & O1).
  destruct (check_error_rate_count now k streams (check_unresponsive now streams al))
    as ((f2 & Hf2) & C2 & O2).
  split; [exists (f1 ++ f2)%list; now rewrite Hf2, Hf1, app_assoc|].
  split.
  - rewrite O2, C1. subst streams. now rewrite existsb_filter.
  - rewrite C2, O1. subst streams. now rewrite existsb_filter.
Qed.

(** A processed frame ([updateStatistics(1, false)], as called by
    [handleFrameProcessed]) never raises the error count, so it never
    raises the error rate; it stamps [lastProcessed], after which the
    stream is ["healthy"] and not due for an unresponsive alert for the
    next 5 minutes.  In general a ["healthy"] stream is never due for that
    alert. *)
Theorem updateStatistics_heartbeat (t : Z) (st : stream_stats) :
  st_errors (updateStatistics 1 false t st) = st_errors st /\
  st_totalFrames (updateStatistics 1 false t st) = (st_totalFrames st + 1)%Z /\
  (forall u, (u < t + 5 * 60 * 1000)%Z ->
     health u (updateStatistics 1 false t st) = "healthy" /\
     unresponsive_due u (updateStatistics 1 false t st) = false) /\
  ((0 <= st_errors st)%Z -> (0 < st_totalFrames st)%Z ->
   (error_rate (updateStatistics 1 false t st) <= error_rate st)%Q) /\
  (forall u (s : stream_stats), health u s = "healthy" -> unresponsive_due u s = false).
Proof.
  split; [reflexivity|]. split; [reflexivity|]. split; [|split].
  - intros u Hu. unfold health, unresponsive_due. simpl.
    assert (E1 : Z.ltb (u - t) (5 * 60 * 1000) = true) by (apply Z.ltb_lt; lia).
    assert (E2 : Z.ltb (5 * 60 * 1000) (u - t) = false) by (apply Z.ltb_ge; lia).
    now rewrite E1, E2.
  - intros He Ht. unfold error_rate. simpl.
    destruct (st_totalFrames st) as [|p|p]; try lia.
    unfold Qle, Qdiv, Qmult, Qinv, inject_Z. simpl. nia.
  - intros u s H. unfold health, unresponsive_due in *.
    destruct (st_lastProcessed s) as [lp|]; [|reflexivity].
    destruct (Z.ltb_spec (u - lp) (5 * 60 * 1000)); [apply Z.ltb_ge; lia|].
    destruct (Z.ltb (u - lp) (30 * 60 * 1000)); discriminate.
Qed.

Lemma updateStatistics_heartbeat_witness :
  let st := mkStats "F1" "Cam 1" "active" (Some 0%Z) 100 100 20 in
  health 1000 (updateStatistics 1 false 500 st) = "healthy" /\
  (error_rate (updateStatistics 1 false 500 st) <= error_rate st)%Q.
Proof.
  intros st. destruct (updateStatistics_heartbeat 500 st) as (_ & _ & H3 & H4 & _).
  split; [apply (H3 1000%Z); lia|apply H4; vm_compute; congruence].
Defined.

End AlertServiceOpsFacts.

(* ------------------------------------------------------------------ *)
(** ** StreamService: restart, status, worker messages and cleanup *)

Module StreamServiceOpsFacts.

Import AlertModel StreamService StreamServiceOps.

Lemma map_get_replace {V} (k k' : string) (v : V) (m : js_map V) :
  map_get k' (map (fun kv => if String.eqb (fst kv) k then (k, v) else kv) m) =
  if String.eqb k k'
  then (if existsb (fun kv => String.eqb (fst kv) k) m then Some v else None)
  else map_get k' m.
Proof.
  unfold map_get. induction m as [|[k1 v1] m IH]; simpl.
  - destruct (String.eqb k k'); reflexivity.
  - destruct (String.eqb_spec k1 k) as [->|Hne]; simpl.
    + destruct (String.eqb k k') eqn:E; simpl; [reflexivity|].
      exact IH.
    + destruct (String.eqb_spec k1 k') as [->|Hne']; simpl.
      * apply not_eq_sym, String.eqb_neq in Hne. now rewrite Hne.
      * exact IH.
Qed.

Lemma map_get_snoc {V} (k k' : string) (v : V) (m : js_map V) :
  map_get k' (m ++ [(k, v)])%list =
  match map_get k' m with
  | Some x => Some x
  | None => if String.eqb k k' then Some v else None
  end.
Proof.
  unfold map_get. induction m as [|[k1 v1] m IH]; simpl.
  - destruct (String.eqb k k'); reflexivity.
  - destruct (String.eqb k1 k'); simpl; [reflexivity|exact IH].
Qed.

Lemma map_get_set {V} (k k' : string) (v : V) (m : js_map V) :
  map_get k' (map_set k v m) = if String.eqb k k' then Some v else map_get k' m.
Proof.
  unfold map_set. destruct (map_has k m) eqn:E.
  - rewrite map_get_replace, <- StreamServiceFacts.map_has_existsb, E. reflexivity.
  - rewrite map_get_snoc. destruct (String.eqb_spec k k') as [<-|].
    + unfold map_has in E. destruct (map_get k m); [discriminate|reflexivity].
    + destruct (map_get k' m); reflexivity.
Qed.

Lemma map_get_delete {V} (k k' : string) (m : js_map V) :
  map_get k' (map_delete k m) = if String.eqb k k' then None else map_get k' m.
Proof.
  destruct (String.eqb_spec k k') as [<-|Hne].
  - pose proof (StreamServiceFacts.map_delete_has k m) as H. unfold map_has in H.
    destruct (map_get k (map_delete k m)); [discriminate|reflexivity].
  - apply StreamServiceFacts.map_delete_get. congruence.
Qed.

Lemma map_has_get {V} (k : string) (m : js_map V) :
  map_has k m = match map_get k m with Some _ => true | None => false end.
Proof. reflexivity. Qed.

Lemma map_set_keys_present {V} (k : string) (v : V) (m : js_map V) (x : V) :
  map_get k m = Some x -> map fst (map_set k v m) = map fst m.
Proof.
  intros H. rewrite StreamServiceFacts.map_set_keys, map_has_get, H. reflexivity.
Qed.

Lemma stopStream_db (k k' : string) (s : service) :
  streams_db (fst (stopStream k s)) !! k' =
  if String.eqb k k' then option_map (with_status "inactive") (streams_db s !! k')
  else streams_db s !! k'.
Proof.
  unfold stopStream. simpl.
  destruct (String.eqb_spec k k') as [<-|Hne].
  - destruct (streams_db s !! k) eqn:E.
    + now rewrite lookup_insert_eq.
    + now rewrite E.
  - destruct (streams_db s !! k); [|reflexivity].
    now rewrite lookup_insert_ne.
Qed.

(** [restartStream] always installs a fresh registry entry: for a stored
    stream (active or not) the result is the record with status
    ['active'], the [activeStreams] entry is reset to start time [t], zero
    frames and no last frame, a worker is registered, and the other ids and
    the alerts are untouched.  Without a record it fails with
    [StreamNotFound], after [stopStream] has still removed the id from both
    registries. *)
Theorem restartStream_fresh (streamId : string) (t : Z) (s : service) :
  match streams_db s !! streamId with
  | Some st =>
    snd (restartStream streamId t s) = inr (with_status "active" st) /\
    map_get streamId (activeStreams (fst (restartStream streamId t s))) =
      Some (mkActive (sr_name st) t 0 None) /\
    map_get streamId (workers (fst (restartStream streamId t s))) =
      Some (mkHandle streamId) /\
    streams_db (fst (restartStream streamId t s)) !! streamId =
      Some (with_status "active" st) /\
    alerts_db (fst (restartStream streamId t s)) = alerts_db s /\
    (forall k, k <> streamId ->
       map_get k (activeStreams (fst (restartStream streamId t s))) =
         map_get k (activeStreams s) /\
       map_get k (workers (fst (restartStream streamId t s))) = map_get k (workers s) /\
       streams_db (fst (restartStream streamId t s)) !! k = streams_db s !! k)
  | None =>
    restartStream streamId t s = (fst (stopStream streamId s), inl StreamNotFound) /\
    map_get streamId (activeStreams (fst (restartStream streamId t s))) = None /\
    map_get streamId (workers (fst (restartStream streamId t s))) = None /\
    streams_db (fst (restartStream streamId t s)) = streams_db s
  end.
Proof.
  assert (Hdb := stopStream_db streamId streamId s). rewrite String.eqb_refl in Hdb.
  unfold restartStream, startStream.
  destruct (streams_db s !! streamId) as [st|] eqn:E; cbn [option_map] in Hdb; rewrite Hdb.
  - pose proof (StreamServiceFacts.map_delete_has streamId (activeStreams s)) as Hd.
    simpl in Hd |- *. rewrite Hd. simpl.
    split; [reflexivity|]. split; [now rewrite map_get_set, String.eqb_refl|].
    split; [now rewrite map_get_set, String.eqb_refl|].
    split; [now rewrite lookup_insert_eq|].
    split; [reflexivity|].
    intros k Hk. apply not_eq_sym in Hk. pose proof Hk as Hk'.
    apply String.eqb_neq in Hk'.
    rewrite !map_get_set, !map_get_delete, Hk'.
    split; [reflexivity|]. split; [reflexivity|].
    rewrite lookup_insert_ne by exact Hk.
    pose proof (stopStream_db streamId k s) as H. rewrite Hk' in H. exact H.
  - simpl. split; [reflexivity|].
    rewrite !map_get_delete, String.eqb_refl. split; [reflexivity|].
    split; [reflexivity|]. now rewrite E.
Qed.

Lemma restartStream_fresh_witness :
  "F2" <> "F1" /\
  streams_db (fst (restartStream "F1" 5 stale_service)) !! "F2" =
    streams_db stale_service !! "F2".
Proof.
  assert (E : streams_db stale_service !! "F1" = Some (mkStream "Cam 1" "active" 0))
    by reflexivity.
  generalize (restartStream_fresh "F1" 5 stale_service). rewrite E.
  intros (_ & _ & _ & _ & _ & H).
  split; [discriminate|]. apply H. discriminate.
Defined.

(** [handleStreamError] marks a stored stream ['error'] and leaves both
    registries in place (the worker is not stopped).  The alert it creates
    carries [{ error: error.message }] as [data], a string on the nested
    path [data.error], so its save is rejected and no alert is stored.  A
    later [updateStream] does not restart the stream, since only ['active']
    streams are restarted.  Without a record the service is left
    unchanged. *)
Theorem handleStreamError_spec (streamId message : string) (now : Z) (s : service) :
  match streams_db s !! streamId with
  | Some st =>
    handleStreamError streamId message now s =
      mkService (workers s) (activeStreams s)
        (<[streamId := with_status "error" st]> (streams_db s)) (alerts_db s) /\
    (forall t, updateStream streamId t (handleStreamError streamId message now s) =
               (handleStreamError streamId message now s,
                inr (with_status "error" st)))
  | None => handleStreamError streamId message now s = s
  end.
Proof.
  unfold handleStreamError, updateStreamStatus.
  destruct (streams_db s !! streamId) as [st|] eqn:E; [|reflexivity].
  simpl. rewrite lookup_insert_eq. split; [reflexivity|].
  intros t. unfold updateStream. simpl.
  rewrite lookup_insert_eq. reflexivity.
Qed.

Lemma handleFrameProcessed_keys (streamId : string) (now : Z) (s : service) :
  map fst (activeStreams (handleFrameProcessed streamId now s)) =
  map fst (activeStreams s).
Proof.
  unfold handleFrameProcessed. simpl.
  destruct (map_get streamId (activeStreams s)) as [i|] eqn:E; [|reflexivity].
  eapply map_set_keys_present. exact E.
Qed.

Lemma handleFrameProcessed_other (streamId k : string) (now : Z) (s : service) :
  k <> streamId ->
  streams_db (handleFrameProcessed streamId now s) !! k = streams_db s !! k /\
  map_get k (activeStreams (handleFrameProcessed streamId now s)) =
    map_get k (activeStreams s).
Proof.
  intros Hk. unfold handleFrameProcessed. simpl. split.
  - destruct (streams_db s !! streamId); [|reflexivity].
    now rewrite lookup_insert_ne by congruence.
  - destruct (map_get streamId (activeStreams s)); [|reflexivity].
    rewrite map_get_set. apply not_eq_sym, String.eqb_neq in Hk. now rewrite Hk.
Qed.

(** The alerts left by [handleAIResult]: unchanged when the [Result] save
    is rejected, otherwise those of [on_outcome] with threshold 0.8 (the
    store is unchanged when that alert is rejected). *)
Lemma handleAIResult_alerts (streamId mt : string) (dets : list detection) (ok : bool)
    (now : Z) (s : service) :
  alerts_db (handleAIResult streamId mt dets ok now s) =
  if result_valid mt dets ok
  then match on_outcome streamId mt (4 # 5) dets now (alerts_db s) with
       | Some al => al
       | None => alerts_db s
       end
  else alerts_db s.
Proof.
  unfold handleAIResult. destruct (result_valid mt dets ok); simpl; [|reflexivity].
  unfold on_outcome. destruct dets as [|d ds]; [reflexivity|].
  destruct (List.filter _ _); [reflexivity|].
  destruct (createDetectionAlert _ _ _ _ _); reflexivity.
Qed.

Lemma handleAIResult_regs (streamId mt : string) (dets : list detection) (ok : bool)
    (now : Z) (s : service) :
  workers (handleAIResult streamId mt dets ok now s) = workers s /\
  activeStreams (handleAIResult streamId mt dets ok now s) = activeStreams s /\
  streams_db (handleAIResult streamId mt dets ok now s) = streams_db s.
Proof.
  unfold handleAIResult. destruct (negb _); [auto|].
  match goal with |- context [match ?x with Some _ => _ | None => _ end] => destruct x end;
    auto.
Qed.

(** The alert step of [handleAIResult] once the [Result] is saved: at most
    one alert is appended, and none for a model type outside the [Alert]
    [category] enum. *)
Lemma handleAIResult_fresh (streamId mt : string) (dets : list detection) (ok : bool)
    (now : Z) (s : service) :
  (exists fresh, alerts_db (handleAIResult streamId mt dets ok now s) =
                 (alerts_db s ++ fresh)%list /\ (length fresh <= 1)%nat) /\
  (category_ok mt = false ->
   alerts_db (handleAIResult streamId mt dets ok now s) = alerts_db s).
Proof.
  rewrite handleAIResult_alerts.
  assert (N : exists fresh, alerts_db s = (alerts_db s ++ fresh)%list /\ (length fresh <= 1)%nat)
    by (exists []; rewrite app_nil_r; split; [reflexivity|simpl; lia]).
  destruct (result_valid mt dets ok); [|split; [exact N|reflexivity]].
  unfold on_outcome. destruct dets as [|d ds]; [split; [exact N|reflexivity]|].
  destruct (List.filter _ (d :: ds)) as [|x xs]; [split; [exact N|reflexivity]|].
  destruct (category_ok mt) eqn:Hc.
  - destruct (AlertFacts.createDetectionAlert_shape streamId mt (x :: xs) now (alerts_db s) Hc)
      as (a & Ha & _).
    rewrite Ha. split; [exists [a]; split; [reflexivity|simpl; lia]|discriminate].
  - rewrite AlertFacts.createDetectionAlert_rejected by exact Hc.
    split; [exact N|reflexivity].
Qed.

(** A worker message never changes which ids are registered (workers and
    [activeStreams] keep their keys), never touches another stream's
    record or registry entry, and adds at most one alert, only for an
    [ai_result]: once the [Result] is saved, the alert the AI service step
    raises with the fixed threshold 0.8, and never one for a model type
    outside the [Alert] [category] enum. *)
Theorem handleWorkerMessage_keeps_registration (streamId : string) (m : worker_message)
    (now : Z) (s : service) :
  map fst (workers (handleWorkerMessage streamId m now s)) = map fst (workers s) /\
  map fst (activeStreams (handleWorkerMessage streamId m now s)) =
    map fst (activeStreams s) /\
  (exists fresh, alerts_db (handleWorkerMessage streamId m now s) =
                 (alerts_db s ++ fresh)%list /\ (length fresh <= 1)%nat) /\
  (forall k, k <> streamId ->
     streams_db (handleWorkerMessage streamId m now s) !! k = streams_db s !! k /\
     map_get k (activeStreams (handleWorkerMessage streamId m now s)) =
       map_get k (activeStreams s)) /\
  match m with
  | WAIResult mt dets ok =>
    alerts_db (handleWorkerMessage streamId m now s) =
      (if result_valid mt dets ok
       then match on_outcome streamId mt (4 # 5) dets now (alerts_db s) with
            | Some al => al
            | None => alerts_db s
            end
       else alerts_db s) /\
    (category_ok mt = false ->
     alerts_db (handleWorkerMessage streamId m now s) = alerts_db s)
  | _ => alerts_db (handleWorkerMessage streamId m now s) = alerts_db s
  end.
Proof.
  assert (N : exists fresh, alerts_db s = (alerts_db s ++ fresh)%list /\ (length fresh <= 1)%nat)
    by (exists []; rewrite app_nil_r; split; [reflexivity|simpl; lia]).
  destruct m as [|mt dets ok|msg|st|ty]; cbn [handleWorkerMessage].
  - (* frame_processed *)
    split; [reflexivity|]. split; [apply handleFrameProcessed_keys|].
    split; [exact N|].
    split; [intros k Hk; now apply handleFrameProcessed_other|reflexivity].
  - (* ai_result *)
    destruct (handleAIResult_regs streamId mt dets ok now s) as (W & A & D).
    destruct (handleAIResult_fresh streamId mt dets ok now s) as (F & C).
    rewrite W, A. split; [reflexivity|]. split; [reflexivity|]. split; [exact F|].
    split; [intros k _; rewrite D; split; reflexivity|].
    split; [apply handleAIResult_alerts|exact C].
  - (* error *)
    pose proof (handleStreamError_spec streamId msg now s) as H.
    destruct (streams_db s !! streamId) as [st|] eqn:E.
    + destruct H as (-> & _). cbn [workers activeStreams streams_db alerts_db].
      split; [reflexivity|]. split; [reflexivity|]. split; [exact N|].
      split; [|reflexivity].
      intros k Hk. rewrite lookup_insert_ne by congruence.
      split; reflexivity.
    + rewrite H. split; [reflexivity|]. split; [reflexivity|]. split; [exact N|].
      split; [intros k _; split; reflexivity|reflexivity].
  - (* status_update *)
    unfold updateStreamStatus.
    destruct (streams_db s !! streamId) as [r|] eqn:E; cbn [workers activeStreams streams_db alerts_db].
    + split; [reflexivity|]. split; [reflexivity|]. split; [exact N|].
      split; [|reflexivity].
      intros k Hk. rewrite lookup_insert_ne by congruence.
      split; reflexivity.
    + split; [reflexivity|]. split; [reflexivity|]. split; [exact N|].
      split; [intros k _; split; reflexivity|reflexivity].
  - split; [reflexivity|]. split; [reflexivity|]. split; [exact N|].
    split; [intros k _; split; reflexivity|reflexivity].
Qed.

Lemma handleWorkerMessage_keeps_registration_witness :
  alerts_db (handleWorkerMessage "F1"
     (WAIResult "face-recognition" [mkDetection "person" (9 # 10) None] true) 5
     stale_service) = alerts_db stale_service /\
  streams_db (handleWorkerMessage "F2"
     (WAIResult "face-recognition" [mkDetection "person" (9 # 10) None] true) 5
     stale_service) !! "F1" = streams_db stale_service !! "F1".
Proof.
  split.
  - destruct (handleWorkerMessage_keeps_registration "F1"
                (WAIResult "face-recognition" [mkDetection "person" (9 # 10) None] true) 5
                stale_service) as (_ & _ & _ & _ & H).
    apply (proj2 H). reflexivity.
  - destruct (handleWorkerMessage_keeps_registration "F2"
                (WAIResult "face-recognition" [mkDetection "person" (9 # 10) None] true) 5
                stale_service) as (_ & _ & _ & H & _).
    apply (H "F1"). discriminate.
Defined.

(** A [frame_processed] message is the heartbeat of the health sweep: for a
    registered stream it bumps the frame count and stamps [lastFrame] with
    the current time, so [monitorActiveStreams] does not consider the
    stream stale for the next 30 seconds; an unregistered stream's
    registry is left as it is.  Independently, when the database holds a
    record for the id, [updateStatistics(1, false)] adds one to
    [totalFrames] and [processedFrames] and stamps [lastProcessed], keeping
    the other fields.  Nothing else changes. *)
Theorem handleFrameProcessed_heartbeat (streamId : string) (now : Z) (s : service) :
  workers (handleFrameProcessed streamId now s) = workers s /\
  alerts_db (handleFrameProcessed streamId now s) = alerts_db s /\
  match map_get streamId (activeStreams s) with
  | Some i =>
    map_get streamId (activeStreams (handleFrameProcessed streamId now s)) =
      Some (mkActive (ai_name i) (ai_startTime i) (S (ai_frameCount i)) (Some now)) /\
    (forall u i', (u <= now + 30000)%Z ->
       map_get streamId (activeStreams (handleFrameProcessed streamId now s)) = Some i' ->
       is_stale u i' = false)
  | None => activeStreams (handleFrameProcessed streamId now s) = activeStreams s
  end /\
  match streams_db s !! streamId with
  | Some st =>
    exists st',
      streams_db (handleFrameProcessed streamId now s) !! streamId = Some st' /\
      sr_name st' = sr_name st /\ sr_status st' = sr_status st /\
      sr_uptime st' = sr_uptime st /\
      sr_totalFrames st' = (sr_totalFrames st + 1)%Z /\
      sr_processedFrames st' = (sr_processedFrames st + 1)%Z /\
      sr_errors st' = sr_errors st /\ sr_lastProcessed st' = Some now
  | None => streams_db (handleFrameProcessed streamId now s) = streams_db s
  end /\
  (forall k, k <> streamId ->
     streams_db (handleFrameProcessed streamId now s) !! k = streams_db s !! k /\
     map_get k (activeStreams (handleFrameProcessed streamId now s)) =
       map_get k (activeStreams s)).
Proof.
  split; [reflexivity|]. split; [reflexivity|].
  split; [|split; [|intros k Hk; now apply handleFrameProcessed_other]].
  - unfold handleFrameProcessed. cbn [activeStreams].
    destruct (map_get streamId (activeStreams s)) as [i|] eqn:E; [|reflexivity].
    rewrite map_get_set, String.eqb_refl. split; [reflexivity|].
    intros u i' Hu H. injection H as <-. unfold is_stale. simpl.
    apply Z.ltb_ge. lia.
  - unfold handleFrameProcessed. cbn [streams_db].
    destruct (streams_db s !! streamId) as [st|] eqn:E; [|reflexivity].
    eexists. rewrite lookup_insert_eq. split; [reflexivity|].
    simpl. repeat split.
Qed.

Lemma handleFrameProcessed_heartbeat_witness :
  is_stale 31000 (mkActive "Cam 1" 0 11 (Some 30000%Z)) = false /\
  streams_db (handleFrameProcessed "F1" 30000 stale_service) !! "F2" =
    streams_db stale_service !! "F2".
Proof.
  pose proof (handleFrameProcessed_heartbeat "F1" 30000 stale_service) as H.
  destruct H as (_ & _ & H1 & _ & H2). simpl in H1. destruct H1 as (_ & H1).
  split; [apply (H1 31000%Z); [lia|reflexivity]|].
  apply (H2 "F2"). discriminate.
Defined.

Lemma stop_all_effect (ids : list string) :
  forall s,
  alerts_db (stop_all ids s) = alerts_db s /\
  (forall k, streams_db (stop_all ids s) !! k =
     if existsb (String.eqb k) ids
     then option_map (with_status "inactive") (streams_db s !! k)
     else streams_db s !! k).
Proof.
  induction ids as [|k0 rest IH]; intros s; simpl.
  - split; [reflexivity|intros; reflexivity].
  - destruct (IH (fst (stopStream k0 s))) as (A & D).
    split; [exact A|]. intros k.
    rewrite D, !stopStream_db, (String.eqb_sym k k0).
    destruct (String.eqb k0 k), (existsb (String.eqb k) rest); simpl;
      destruct (streams_db s !! k); reflexivity.
Qed.

Lemma existsb_keys {V} (k : string) (m : js_map V) :
  existsb (String.eqb k) (map fst m) = map_has k m.
Proof.
  rewrite StreamServiceFacts.map_has_existsb.
  induction m as [|[k1 v1] m IH]; simpl; [reflexivity|].
  now rewrite IH, String.eqb_sym.
Qed.

(** [cleanup] empties both registries (every worker is terminated, also
    one whose stream is no longer in [activeStreams]), keeps the alerts,
    and sets to ['inactive'] exactly the stored streams that were active;
    every other record is untouched. *)
Theorem cleanup_stops_all (s : service) :
  workers (cleanup s) = [] /\ activeStreams (cleanup s) = [] /\
  alerts_db (cleanup s) = alerts_db s /\
  (forall k, streams_db (cleanup s) !! k =
     if map_has k (activeStreams s)
     then option_map (with_status "inactive") (streams_db s !! k)
     else streams_db s !! k).
Proof.
  unfold cleanup. simpl.
  destruct (stop_all_effect (map fst (activeStreams s)) s) as (A & D).
  split; [reflexivity|]. split; [reflexivity|]. split; [exact A|].
  intros k. now rewrite D, existsb_keys.
Qed.

End StreamServiceOpsFacts.

(* ------------------------------------------------------------------ *)
(** ** StreamWorker: stop, restart, configuration and frame numbering *)

Module StreamWorkerOpsFacts.

Import StreamWorker StreamWorkerOps.

Lemma run_ticks_stopped (ticks : list (Z * option frame)) (w : worker) :
  isRunning w = false -> run_ticks ticks w = (w, []).
Proof.
  intros H. induction ticks as [|[t cap] rest IH]; [reflexivity|].
  simpl. unfold processFrame. rewrite H. simpl. now rewrite IH.
Qed.

(** [stop()] halts the worker: it is no longer running, its interval is
    cleared, it posts [inactive] and keeps its frame count; any number of
    later interval ticks then does nothing and posts nothing. *)
Theorem stop_halts (w : worker) (ticks : list (Z * option frame)) :
  isRunning (fst (stop w)) = false /\ processingInterval (fst (stop w)) = None /\
  snd (stop w) = [MsgStatusUpdate "inactive"] /\
  frameCount (fst (stop w)) = frameCount w /\
  streamData (fst (stop w)) = streamData w /\
  run_ticks ticks (fst (stop w)) = (fst (stop w), []).
Proof.
  repeat split. apply run_ticks_stopped. reflexivity.
Qed.

(** An ['update_config'] message merges the new keys into [streamData]
    but keeps the running state, frame count, last frame time and the
    interval, so a new [fps] is not applied while the worker runs; a
    following ['restart'] posts [inactive] then [active], keeps the frame
    count, stamps the restart time and sets the interval from the merged
    [fps]. *)
Theorem restart_and_update_config (now : Z) (p : config_patch) (w : worker) :
  isRunning (update_config p w) = isRunning w /\
  frameCount (update_config p w) = frameCount w /\
  lastFrameTime (update_config p w) = lastFrameTime w /\
  processingInterval (update_config p w) = processingInterval w /\
  fc_fps (streamData (update_config p w)) =
    (match cp_settings p with Some (fps, _, _) => fps | None => fc_fps (streamData w) end) /\
  snd (restart now (update_config p w)) = [MsgStatusUpdate "inactive"; MsgStatusUpdate "active"] /\
  isRunning (fst (restart now (update_config p w))) = true /\
  frameCount (fst (restart now (update_config p w))) = frameCount w /\
  lastFrameTime (fst (restart now (update_config p w))) = Some now /\
  processingInterval (fst (restart now (update_config p w))) =
    Some (js_div_1000 (fc_fps (streamData (update_config p w)))) /\
  streamData (fst (restart now (update_config p w))) = streamData (update_config p w).
Proof.
  unfold update_config.
  destruct (cp_settings p) as [[[fps wd] ht]|]; simpl; repeat split.
Qed.

Lemma posted_numbers_app (m1 m2 : list msg) :
  posted_numbers (m1 ++ m2)%list = (posted_numbers m1 ++ posted_numbers m2)%list.
Proof. unfold posted_numbers. apply flat_map_app. Qed.

Lemma step_async_numbers (e : wevent) (w : worker) (fl : list in_flight) :
  let '(w1, fl1, m1) := step_async e w fl in
  (frameCount w1 = frameCount w \/ frameCount w1 = S (frameCount w)) /\
  List.Forall (fun n => n = frameCount w1) (posted_numbers m1) /\
  (fl1 <> [] \/ posted_numbers m1 <> [] -> fl <> [] \/ frameCount w1 = S (frameCount w)).
Proof.
  destruct e as [now cap|i now]; simpl.
  - unfold tick_async. destruct (isRunning w); simpl.
    2:{ split; [now left|]. split; [constructor|]. intros [H|H]; [now left|easy]. }
    destruct (captureFrame _ _); simpl.
    + destruct (active_models _) as [|x xs]; simpl.
      * split; [now right|]. split; [now repeat constructor|]. intros _. now right.
      * split; [now right|]. split; [constructor|]. intros _. now right.
    + split; [now right|]. split; [constructor|]. intros _. now right.
  - unfold resume_async.
    destruct (nth_error fl i) as [[|m [|m2 rest]]|] eqn:E; simpl.
    + split; [now left|]. split; [constructor|]. intros _. left. intros ->. destruct i; discriminate.
    + split; [now left|]. split; [now repeat constructor|]. intros _. left. intros ->. destruct i; discriminate.
    + split; [now left|]. split; [now repeat constructor|]. intros _. left. intros ->. destruct i; discriminate.
    + split; [now left|]. split; [constructor|]. intros [H|H]; [now left|easy].
Qed.

Lemma sorted_const_app (c : nat) (l1 l2 : list nat) :
  List.Forall (fun n => n = c) l1 -> StronglySorted le l2 ->
  List.Forall (fun n => c <= n)%nat l2 -> StronglySorted le (l1 ++ l2)%list.
Proof.
  intros F1 S2 F2. induction l1 as [|n ns IH]; simpl; [exact S2|].
  inversion F1 as [|? ? Hn Fns]; subst.
  constructor; [apply IH; exact Fns|].
  apply List.Forall_app. split.
  - eapply List.Forall_impl; [|exact Fns]. intros x ->. lia.
  - exact F2.
Qed.

Lemma run_async_numbers_gen (evs : list wevent) :
  forall w fl b,
  (b <= frameCount w)%nat -> (fl = [] \/ b < frameCount w)%nat ->
  let '(w', _, ms) := run_async evs w fl in
  StronglySorted le (posted_numbers ms) /\
  List.Forall (fun n => frameCount w <= n /\ b < n <= frameCount w')%nat (posted_numbers ms) /\
  (frameCount w <= frameCount w' <= frameCount w + length evs)%nat.
Proof.
  induction evs as [|e rest IH]; intros w fl b Hb Hfl; simpl.
  - split; [constructor|]. split; [constructor|lia].
  - pose proof (step_async_numbers e w fl) as P.
    destruct (step_async e w fl) as [[w1 fl1] m1].
    destruct P as (C & F1 & G).
    assert (Hb1 : (b <= frameCount w1)%nat) by lia.
    assert (Hfl1 : (fl1 = [] \/ b < frameCount w1)%nat).
    { destruct fl1 as [|x xs]; [now left|right].
      assert (Hx : x :: xs <> []) by discriminate.
      destruct (G (or_introl Hx)) as [H|H]; [|lia].
      destruct Hfl as [->|Hfl]; [congruence|lia]. }
    specialize (IH w1 fl1 b Hb1 Hfl1).
    destruct (run_async rest w1 fl1) as [[w2 fl2] m2].
    destruct IH as (S2 & F2 & C2).
    rewrite posted_numbers_app.
    assert (B1 : posted_numbers m1 <> [] -> (b < frameCount w1)%nat).
    { intros Hm. destruct (G (or_intror Hm)) as [H|H]; [|lia].
      destruct Hfl as [->|Hfl]; [congruence|lia]. }
    split; [|split; [|simpl; lia]].
    + apply (sorted_const_app (frameCount w1)); [exact F1|exact S2|].
      eapply List.Forall_impl; [|exact F2]. intros x Hx. simpl in Hx. lia.
    + apply List.Forall_app. split.
      * destruct (posted_numbers m1) as [|n ns] eqn:Em; [constructor|].
        assert (Hx : n :: ns <> []) by discriminate.
        specialize (B1 Hx).
        eapply List.Forall_impl; [|exact F1]. intros x ->. lia.
      * eapply List.Forall_impl; [|exact F2]. intros x Hx. simpl in Hx. lia.
Qed.

(** [setInterval] does not wait for the promise of [processFrame], and each
    [frame_processed] or [ai_result] message reads [this.frameCount] when it
    is posted, after the awaited timers; so frames overlap.  Over any run
    that starts with no frame in flight, the numbers these messages carry
    are non-decreasing, all above the frame count at the start and at most
    the one at the end, and the count grows by at most one per event.  They
    need not increase strictly: with one active model, two ticks before the
    first timer fires give two [frame_processed] messages numbered 2. *)
Theorem run_async_frame_numbers (evs : list wevent) (w : worker) :
  (let '(w', _, ms) := run_async evs w [] in
   StronglySorted le (posted_numbers ms) /\
   List.Forall (fun n => frameCount w < n <= frameCount w')%nat (posted_numbers ms) /\
   (frameCount w <= frameCount w' <= frameCount w + length evs)%nat) /\
  (let f := mkFrame 640 480 0 in
   let w0 := mkWorker (mkFeed "Cam 1" "rtsp" 10 640 480 [("object-detection", true)])
               true 0 (Some 0%Z) (Some (JFinite 100)) in
   frame_numbers (snd (run_async [ETick 100 (Some f); ETick 200 (Some f);
                                  EResume 0 210; EResume 0 310] w0 [])) = [2%nat; 2%nat]).
Proof.
  split; [|reflexivity].
  pose proof (run_async_numbers_gen evs w [] (frameCount w) (le_n _) (or_introl eq_refl)) as H.
  destruct (run_async evs w []) as [[w' fl'] ms].
  destruct H as (S & F & C). split; [exact S|]. split; [|exact C].
  eapply List.Forall_impl; [|exact F]. intros x Hx. simpl in Hx. lia.
Qed.

End StreamWorkerOpsFacts.
